(** * The INDICATE code executor: execution engine

    A shallow embedding of the execution engine of
    [indicate-spe-local/code-executor/main.py] ([execute_study],
    [execute_r_script], [execute_python_script],
    [run_default_cohort_analysis]) and of the status read of
    [indicate-spe-local/backend-api/main.py] ([get_execution_status]).
    The second half of the file adds the other reads of the backend
    ([get_execution_results], [get_execution_logs], [list_executions]),
    its execution endpoint ([execute_study]) and its study registry
    ([register_study], [get_study], [list_studies]).

    The Python code is effectful: it writes files under [/results], reads
    the clock, lists study directories, spawns child processes and raises
    exceptions.  It is embedded in a state-and-exception monad over a
    [world] that holds the artefact files, the local variable [status] of
    the running handler, and a chronological trace of the effects
    performed.  Everything the code obtains from outside (directory
    listings, child processes, the database, the JSON codec, the clock) is
    read from an [environment].

    Scope of the model: writes to the artefact files and [json.dump] of a
    value that is already JSON always succeed; the spec's
    [StoreUnavailable] condition is outside the model.  The one exception
    is [StoreFailure], the handler again with a results file that may
    refuse to open.  Paths are texts: [path_join] is [pathlib]'s [/] for
    plain names ([plain_name]), and statements that tell files apart by
    their paths are made for such names. *)

From stdpp Require Import base strings gmap list pretty.
From Stdlib Require Import ZArith.

Local Open Scope Z_scope.
Set Warnings "-register-all".

(** ** Data model *)

(** A decoded JSON document, as [json.loads] returns it. *)
Inductive json : Type :=
| JNull
| JBool (b : bool)
| JInt (n : Z)
| JFloat (literal : string)
| JStr (s : string)
| JArr (items : list json)
| JObj (fields : list (string * json)).

(** [class ExecutionRequest(BaseModel)] *)
Module Request.
Record ExecutionRequest : Type := {
  study_id : string;
  execution_id : string;
  parameters : option json;
  timeout : Z;
}.

(** [timeout: int = Field(default=300, ge=10, le=3600)] *)
Definition valid (r : ExecutionRequest) : Prop :=
  10 <= timeout r <= 3600.
End Request.
Abbreviation ExecutionRequest := Request.ExecutionRequest.

(** [class ExecutionStatus(BaseModel)]; timestamps are clock readings. *)
Record ExecutionStatus : Type := {
  study_id : string;
  execution_id : string;
  status : string;
  created_at : Z;
  completed_at : option Z;
  error_message : option string;
  results_available : bool;
}.

(** The three attribute assignments the handler performs on [status]. *)
Definition set_status (v : string) (s : ExecutionStatus) : ExecutionStatus :=
  {| study_id := study_id s; execution_id := execution_id s; status := v;
     created_at := created_at s; completed_at := completed_at s;
     error_message := error_message s;
     results_available := results_available s |}.

Definition set_completed_at (v : option Z) (s : ExecutionStatus)
  : ExecutionStatus :=
  {| study_id := study_id s; execution_id := execution_id s;
     status := status s; created_at := created_at s; completed_at := v;
     error_message := error_message s;
     results_available := results_available s |}.

Definition set_error_message (v : option string) (s : ExecutionStatus)
  : ExecutionStatus :=
  {| study_id := study_id s; execution_id := execution_id s;
     status := status s; created_at := created_at s;
     completed_at := completed_at s; error_message := v;
     results_available := results_available s |}.

Definition set_results_available (v : bool) (s : ExecutionStatus)
  : ExecutionStatus :=
  {| study_id := study_id s; execution_id := execution_id s;
     status := status s; created_at := created_at s;
     completed_at := completed_at s; error_message := error_message s;
     results_available := v |}.

(** [class StudyStatus(BaseModel)] of the backend: the same record without
    [results_available]. *)
Module Backend.
Record StudyStatus : Type := {
  study_id : string;
  execution_id : string;
  status : string;
  created_at : Z;
  completed_at : option Z;
  error_message : option string;
}.
End Backend.

(** Exceptions.  [Exception msg] stands for any exception whose [str] is
    [msg]; the two library classes the code names are kept apart. *)
Inductive exn : Type :=
| HTTPException (status_code : Z) (detail : string)
| TimeoutExpired (stdout stderr : string)
| Exception (msg : string).

(** What [subprocess.run(..., capture_output=True, text=True, timeout=t)]
    does: the child exits, the timeout expires (the exception carries the
    output captured so far), or the call fails otherwise. *)
Inductive run_outcome : Type :=
| Completed (returncode : Z) (stdout stderr : string)
| TimedOut (stdout stderr : string)
| RunError (msg : string).

(** The four queries of the default cohort analysis. *)
Inductive query : Type :=
| Demographics
| VisitStatistics
| IcuStatistics
| TopDiagnoses.

(** A data frame, as [to_dict(orient='records')] shows it. *)
Definition records : Type := list (list (string * json)).

(** Effects, in the order they happen. *)
Inductive event : Type :=
| EvMkdir (exec_dir : string)
| EvPutStatus (status_file : string) (s : ExecutionStatus)
| EvPutResults (results_file : string) (r : json)
| EvLogOpen (log_file : string)
| EvLogWrite (log_file : string) (text : string)
| EvSpawn (cmd : list string) (cwd : string) (timeout : Z)
| EvDefaultAnalysis
| EvQuery (q : query).

(** The artefact files of every execution, each kind keyed by the path of
    the file: [status.json], [results.json] and [execution.log]. *)
Record store : Type := {
  status_files : gmap string ExecutionStatus;
  results_files : gmap string json;
  log_files : gmap string string;
}.

Record world : Type := {
  files : store;
  local_status : option ExecutionStatus;
  clock_reads : nat;
  trace : list event;
}.

(** Everything the engine reads from its surroundings. *)
Record environment : Type := {
  (** [datetime.utcnow()], by number of the reading *)
  utcnow_at : nat -> Z;
  (** the entries of a study directory in the order the operating system
      lists them; [None] when the directory does not exist *)
  listdir : string -> option (list string);
  (** [subprocess.run] by command, working directory and timeout *)
  run : list string -> string -> Z -> run_outcome;
  (** [pd.read_sql]: the rows, or the message of the error raised *)
  read_sql : query -> records + string;
  (** [json.loads]: the document, or the message of the error raised *)
  json_loads : string -> json + string;
  (** [json.dumps] of the request parameters *)
  json_dumps : option json -> string;
  (** [str(e)] for the exception classes that libraries define *)
  library_str : exn -> string;
}.

(** ** The monad *)

Inductive outcome (A : Type) : Type :=
| Returned (a : A)
| Raised (e : exn).
Arguments Returned {A} a.
Arguments Raised {A} e.

Definition M (A : Type) : Type := world -> outcome A * world.

Definition ret {A} (a : A) : M A := fun w => (Returned a, w).

Definition bind {A B} (m : M A) (k : A -> M B) : M B :=
  fun w =>
    match m w with
    | (Returned a, w') => k a w'
    | (Raised e, w') => (Raised e, w')
    end.

Definition raise {A} (e : exn) : M A := fun w => (Raised e, w).

(** [try: m  except <classes matching catches>: h]; effects of [m] stay. *)
Definition try_except {A} (m : M A) (catches : exn -> bool)
    (h : exn -> M A) : M A :=
  fun w =>
    match m w with
    | (Returned a, w') => (Returned a, w')
    | (Raised e, w') => if catches e then h e w' else (Raised e, w')
    end.

Notation "x <- m ;; k" := (bind m (fun x => k))
  (at level 100, m at next level, right associativity).
Notation "m ;; k" := (bind m (fun _ => k))
  (at level 100, right associativity).

(** [except Exception] and the bare [except:] catch every exception of the
    model; [except subprocess.TimeoutExpired] only that class. *)
Definition any_exception (e : exn) : bool := true.

Definition is_TimeoutExpired (e : exn) : bool :=
  match e with
  | TimeoutExpired _ _ => true
  | _ => false
  end.

(** ** Primitive effects *)

Definition emit (ev : event) : M unit :=
  fun w =>
    (Returned tt,
     {| files := files w; local_status := local_status w;
        clock_reads := clock_reads w; trace := trace w ++ [ev] |}).

Definition update_files (f : store -> store) : M unit :=
  fun w =>
    (Returned tt,
     {| files := f (files w); local_status := local_status w;
        clock_reads := clock_reads w; trace := trace w |}).

(** Assignment to the local variable [status]. *)
Definition assign_status (s : ExecutionStatus) : M unit :=
  fun w =>
    (Returned tt,
     {| files := files w; local_status := Some s;
        clock_reads := clock_reads w; trace := trace w |}).

(** Reading [status]; unbound when no assignment was reached. *)
Definition read_status : M ExecutionStatus :=
  fun w =>
    match local_status w with
    | Some s => (Returned s, w)
    | None =>
        (Raised
           (Exception
              "local variable 'status' referenced before assignment"), w)
    end.

(** Entering [execute_study]: a fresh frame, [status] not yet bound. *)
Definition enter_frame : M unit :=
  fun w =>
    (Returned tt,
     {| files := files w; local_status := None;
        clock_reads := clock_reads w; trace := trace w |}).

Definition put_status (path : string) (s : ExecutionStatus)
    (st : store) : store :=
  {| status_files := <[path := s]> (status_files st);
     results_files := results_files st;
     log_files := log_files st |}.

Definition put_results (path : string) (r : json) (st : store) : store :=
  {| status_files := status_files st;
     results_files := <[path := r]> (results_files st);
     log_files := log_files st |}.

Definition open_log (path : string) (st : store) : store :=
  {| status_files := status_files st;
     results_files := results_files st;
     log_files := <[path := EmptyString]> (log_files st) |}.

Definition append_log (path text : string) (st : store) : store :=
  {| status_files := status_files st;
     results_files := results_files st;
     log_files :=
       <[path := default EmptyString (log_files st !! path) +:+ text]>
         (log_files st) |}.

(** What one effect does to the artefact files. *)
Definition apply_event (ev : event) (st : store) : store :=
  match ev with
  | EvPutStatus d s => put_status d s st
  | EvPutResults d r => put_results d r st
  | EvLogOpen d => open_log d st
  | EvLogWrite d text => append_log d text st
  | EvMkdir _ | EvSpawn _ _ _ | EvDefaultAnalysis | EvQuery _ => st
  end.

Definition replay (evs : list event) (st : store) : store :=
  foldl (fun acc ev => apply_event ev acc) st evs.

(** A write is logged in the trace and applied to the files. *)
Definition perform (ev : event) : M unit :=
  emit ev ;; update_files (apply_event ev).

(** [exec_dir.mkdir(parents=True, exist_ok=True)] *)
Definition mkdir (exec_dir : string) : M unit := perform (EvMkdir exec_dir).

(** [with open(status_file, "w") as f: json.dump(status.model_dump(...), f)]:
    the whole record replaces the file. *)
Definition write_status (status_file : string) (s : ExecutionStatus)
  : M unit :=
  perform (EvPutStatus status_file s).

(** [with open(results_file, "w") as f: json.dump(results, f, ...)] *)
Definition write_results (results_file : string) (r : json) : M unit :=
  perform (EvPutResults results_file r).

(** [open(log_file, "w")] truncates, [log.write] appends. *)
Definition log_open (log_file : string) : M unit :=
  perform (EvLogOpen log_file).

Definition log_write (log_file text : string) : M unit :=
  perform (EvLogWrite log_file text).

(** [status.<field> = v] on the local object. *)
Definition modify_status (f : ExecutionStatus -> ExecutionStatus) : M unit :=
  s <- read_status ;; assign_status (f s).

(** ** Paths and strings *)

Definition LF : string := String (Ascii.ascii_of_nat 10) EmptyString.

Definition STUDIES_DIR : string := "/studies".
Definition RESULTS_DIR : string := "/results".

(** [dir / name] *)
Definition path_join (dir name : string) : string := dir +:+ "/" +:+ name.

(** A name that is one path component and nothing else: not empty, not
    [.] or [..], without [/] and without the NUL character, of at most 255
    bytes.  For such a name [dir / name] is the entry [name] of [dir]; any
    other text [pathlib] and the operating system resolve to some other
    path, or refuse. *)
Definition plain_name (name : string) : bool :=
  negb (String.eqb name EmptyString)
  && negb (String.eqb name ".")
  && negb (String.eqb name "..")
  && forallb (fun c => negb (Ascii.eqb c (Ascii.ascii_of_nat 47))
                       && negb (Ascii.eqb c (Ascii.ascii_of_nat 0)))
       (String.list_ascii_of_string name)
  && (String.length name <=? 255)%nat.

(** [name] matches the pattern [*suffix]. *)
Definition endswith (name suffix : string) : bool :=
  let n := String.length name in
  let k := String.length suffix in
  (k <=? n)%nat && String.eqb (String.substring (n - k) k name) suffix.

Section Engine.
Context (E : environment).

(** [datetime.utcnow()] *)
Definition utcnow : M Z :=
  fun w =>
    (Returned (utcnow_at E (clock_reads w)),
     {| files := files w; local_status := local_status w;
        clock_reads := S (clock_reads w); trace := trace w |}).

(** [str(e)] *)
Definition str (e : exn) : string :=
  match e with
  | Exception msg => msg
  | _ => library_str E e
  end.

(** [subprocess.run([...], capture_output=True, text=True,
    timeout=timeout, cwd=exec_dir, env={**os.environ})] *)
Definition subprocess_run (cmd : list string) (cwd : string)
    (timeout : Z) : M (Z * string * string) :=
  emit (EvSpawn cmd cwd timeout) ;;
  match run E cmd cwd timeout with
  | Completed rc out err => ret (rc, out, err)
  | TimedOut out err => raise (TimeoutExpired out err)
  | RunError msg => raise (Exception msg)
  end.

(** [pd.read_sql(query, engine)] *)
Definition pd_read_sql (q : query) : M records :=
  emit (EvQuery q) ;;
  match read_sql E q with
  | inl rows => ret rows
  | inr msg => raise (Exception msg)
  end.

(** [json.loads(text)] *)
Definition loads (text : string) : M json :=
  match json_loads E text with
  | inl v => ret v
  | inr msg => raise (Exception msg)
  end.
End Engine.

(** ** The engine *)

Section Executor.
Context (E : environment).

(** [list(study_dir.glob(pattern))] for a pattern [*suffix]: the matching
    entries, in the order of the directory listing. *)
Definition glob (study_dir suffix : string) : list string :=
  match listdir E study_dir with
  | Some names =>
      path_join study_dir <$> filter (fun n => endswith n suffix = true) names
  | None => []
  end.

(** The record returned when stdout is not JSON. *)
Definition text_result (stdout : string) : json :=
  JObj [("output", JStr stdout); ("type", JStr "text")].

(** The body shared, word for word, by [execute_r_script] and
    [execute_python_script]: [interpreter] is ["Rscript"] or ["python3"],
    [label] is ["R"] or ["Python"]. *)
Definition execute_script (interpreter label : string)
    (script_path exec_dir log_file : string) (parameters : option json)
    (timeout : Z) : M json :=
  try_except
    (log_open log_file ;;
     log_write log_file
       ("Executing " +:+ label +:+ " script: " +:+ script_path +:+ LF) ;;
     log_write log_file
       ("Parameters: " +:+ json_dumps E parameters +:+ LF +:+ LF) ;;
     result <- subprocess_run E [interpreter; script_path] exec_dir timeout ;;
     let '(returncode, stdout, stderr) := result in
     log_write log_file ("=== STDOUT ===" +:+ LF) ;;
     log_write log_file stdout ;;
     log_write log_file (LF +:+ "=== STDERR ===" +:+ LF) ;;
     log_write log_file stderr ;;
     (if bool_decide (returncode ≠ 0)
      then raise (Exception (label +:+ " script failed with code "
                             +:+ pretty returncode +:+ ": " +:+ stderr))
      else ret tt) ;;
     try_except (loads E stdout) any_exception
       (fun _ => ret (text_result stdout)))
    is_TimeoutExpired
    (fun _ =>
       raise (Exception (label +:+ " script execution timed out after "
                         +:+ pretty timeout +:+ " seconds"))).

Definition execute_r_script : string -> string -> string -> option json ->
                              Z -> M json :=
  execute_script "Rscript" "R".

Definition execute_python_script : string -> string -> string ->
                                   option json -> Z -> M json :=
  execute_script "python3" "Python".

(** [df.to_dict(orient='records')] and [...[0]] *)
Definition to_dict (rows : records) : json := JArr (JObj <$> rows).

Definition first_record (rows : records) : M json :=
  match rows with
  | r :: _ => ret (JObj r)
  | [] => raise (Exception "list index out of range")
  end.

Definition run_default_cohort_analysis (exec_dir log_file : string)
  : M json :=
  try_except
    (emit EvDefaultAnalysis ;;
     log_open log_file ;;
     log_write log_file ("Running default cohort analysis" +:+ LF +:+ LF) ;;
     df_demographics <- pd_read_sql E Demographics ;;
     log_write log_file
       ("Demographics: " +:+ pretty (length df_demographics) +:+ " rows"
        +:+ LF) ;;
     df_visits <- pd_read_sql E VisitStatistics ;;
     log_write log_file ("Visit statistics calculated" +:+ LF) ;;
     df_icu <- pd_read_sql E IcuStatistics ;;
     log_write log_file ("ICU statistics calculated" +:+ LF) ;;
     df_diagnoses <- pd_read_sql E TopDiagnoses ;;
     log_write log_file
       ("Top diagnoses: " +:+ pretty (length df_diagnoses) +:+ " found"
        +:+ LF) ;;
     visit_statistics <- first_record df_visits ;;
     icu_statistics <- first_record df_icu ;;
     ret (JObj [("analysis_type", JStr "cohort_characterization");
                ("demographics", to_dict df_demographics);
                ("visit_statistics", visit_statistics);
                ("icu_statistics", icu_statistics);
                ("top_diagnoses", to_dict df_diagnoses)]))
    any_exception
    (fun e =>
       raise (Exception ("Default cohort analysis failed: " +:+ str E e))).

Definition exec_dir_of (request : ExecutionRequest) : string :=
  path_join (path_join RESULTS_DIR (Request.study_id request))
    (Request.execution_id request).

Definition status_file_of (request : ExecutionRequest) : string :=
  path_join (exec_dir_of request) "status.json".

Definition results_file_of (request : ExecutionRequest) : string :=
  path_join (exec_dir_of request) "results.json".

Definition log_file_of (request : ExecutionRequest) : string :=
  path_join (exec_dir_of request) "execution.log".

Definition study_dir_of (request : ExecutionRequest) : string :=
  path_join STUDIES_DIR (Request.study_id request).

(** The [try:] block of [execute_study]. *)
Definition execute_study_try (request : ExecutionRequest)
  : M ExecutionStatus :=
  let exec_dir := exec_dir_of request in
  mkdir exec_dir ;;
  now <- utcnow E ;;
  assign_status
    {| study_id := Request.study_id request;
       execution_id := Request.execution_id request;
       status := "running";
       created_at := now;
       completed_at := None;
       error_message := None;
       results_available := false |} ;;
  let status_file := status_file_of request in
  status <- read_status ;;
  write_status status_file status ;;
  let study_dir := study_dir_of request in
  (if bool_decide (listdir E study_dir = None)
   then raise (HTTPException 404 "Study not found")
   else ret tt) ;;
  let r_scripts := glob study_dir ".R" in
  let py_scripts := glob study_dir ".py" in
  let log_file := log_file_of request in
  results <-
    match r_scripts with
    | script :: _ =>
        execute_r_script script exec_dir log_file
          (Request.parameters request) (Request.timeout request)
    | [] =>
        match py_scripts with
        | script :: _ =>
            execute_python_script script exec_dir log_file
              (Request.parameters request) (Request.timeout request)
        | [] => run_default_cohort_analysis exec_dir log_file
        end
    end ;;
  modify_status (set_status "completed") ;;
  now <- utcnow E ;;
  modify_status (set_completed_at (Some now)) ;;
  modify_status (set_results_available true) ;;
  write_results (results_file_of request) results ;;
  status <- read_status ;;
  write_status status_file status ;;
  read_status.

(** The [except Exception as e:] block of [execute_study]. *)
Definition execute_study_except (request : ExecutionRequest) (e : exn)
  : M ExecutionStatus :=
  modify_status (set_status "failed") ;;
  modify_status (set_error_message (Some (str E e))) ;;
  now <- utcnow E ;;
  modify_status (set_completed_at (Some now)) ;;
  status <- read_status ;;
  write_status (status_file_of request) status ;;
  raise (HTTPException 500 ("Execution failed: " +:+ str E e)).

(** [@app.post("/execute")  async def execute_study(request)] *)
Definition execute_study (request : ExecutionRequest)
  : M ExecutionStatus :=
  enter_frame ;;
  try_except (execute_study_try request) any_exception
    (execute_study_except request).
End Executor.

(** [get_execution_status] of the backend: the status read. *)
Definition get_execution_status (study_id' execution_id' : string)
  : M Backend.StudyStatus :=
  fun w =>
    let status_file :=
      path_join (path_join (path_join RESULTS_DIR study_id') execution_id')
        "status.json" in
    match status_files (files w) !! status_file with
    | None => (Raised (HTTPException 404 "Execution not found"), w)
    | Some s =>
        (Returned
           {| Backend.study_id := study_id s;
              Backend.execution_id := execution_id s;
              Backend.status := status s;
              Backend.created_at := created_at s;
              Backend.completed_at := completed_at s;
              Backend.error_message := error_message s |}, w)
    end.

(** ** The engine when the results file does not open *)

(** [execute_study] writes [results.json] after it has set the status to
    completed with [results_available].  Above, that write succeeds; here
    [open(results_file, "w")] may fail: [refusal] is the message of the
    [OSError] it raises, [None] when the file opens.  The rest of the
    handler is the same code, and [status.json] stays writable. *)
Module StoreFailure.
Section Handler.
Context (E : environment) (refusal : option string).

(** [with open(results_file, "w") as f: json.dump(results, f, ...)] *)
Definition write_results (results_file : string) (r : json) : M unit :=
  match refusal with
  | Some msg => raise (Exception msg)
  | None => perform (EvPutResults results_file r)
  end.

(** The [try:] block of [execute_study]. *)
Definition execute_study_try (request : ExecutionRequest)
  : M ExecutionStatus :=
  let exec_dir := exec_dir_of request in
  mkdir exec_dir ;;
  now <- utcnow E ;;
  assign_status
    {| study_id := Request.study_id request;
       execution_id := Request.execution_id request;
       status := "running";
       created_at := now;
       completed_at := None;
       error_message := None;
       results_available := false |} ;;
  let status_file := status_file_of request in
  status <- read_status ;;
  write_status status_file status ;;
  let study_dir := study_dir_of request in
  (if bool_decide (listdir E study_dir = None)
   then raise (HTTPException 404 "Study not found")
   else ret tt) ;;
  let r_scripts := glob E study_dir ".R" in
  let py_scripts := glob E study_dir ".py" in
  let log_file := log_file_of request in
  results <-
    match r_scripts with
    | script :: _ =>
        execute_r_script E script exec_dir log_file
          (Request.parameters request) (Request.timeout request)
    | [] =>
        match py_scripts with
        | script :: _ =>
            execute_python_script E script exec_dir log_file
              (Request.parameters request) (Request.timeout request)
        | [] => run_default_cohort_analysis E exec_dir log_file
        end
    end ;;
  modify_status (set_status "completed") ;;
  now <- utcnow E ;;
  modify_status (set_completed_at (Some now)) ;;
  modify_status (set_results_available true) ;;
  write_results (results_file_of request) results ;;
  status <- read_status ;;
  write_status status_file status ;;
  read_status.

(** [@app.post("/execute")  async def execute_study(request)], with the
    [except Exception as e:] block of the handler as it is. *)
Definition execute_study (request : ExecutionRequest)
  : M ExecutionStatus :=
  enter_frame ;;
  try_except (execute_study_try request) any_exception
    (execute_study_except E request).
End Handler.
End StoreFailure.

(** ** Reading the trace *)

(** The world after the effects [evs], with the frame and the clock
    untouched. *)
Definition extend (w : world) (evs : list event) : world :=
  {| files := replay evs (files w); local_status := local_status w;
     clock_reads := clock_reads w; trace := trace w ++ evs |}.

Definition status_persists (evs : list event)
  : list (string * ExecutionStatus) :=
  omap (fun ev => match ev with
                  | EvPutStatus f s => Some (f, s)
                  | _ => None
                  end) evs.

Definition results_persists (evs : list event) : list (string * json) :=
  omap (fun ev => match ev with
                  | EvPutResults f r => Some (f, r)
                  | _ => None
                  end) evs.

(** What was started to compute a result: a child process or the built-in
    analysis. *)
Inductive launch : Type :=
| LaunchProcess (cmd : list string)
| LaunchDefault.

Definition launches (evs : list event) : list launch :=
  omap (fun ev => match ev with
                  | EvSpawn cmd _ _ => Some (LaunchProcess cmd)
                  | EvDefaultAnalysis => Some LaunchDefault
                  | _ => None
                  end) evs.

(** Effects of a runnable: it writes its log and nothing else of the
    artefacts. *)
Definition runner_event (log_file : string) (ev : event) : Prop :=
  match ev with
  | EvLogOpen f | EvLogWrite f _ => f = log_file
  | EvSpawn _ _ _ | EvDefaultAnalysis | EvQuery _ => True
  | EvMkdir _ | EvPutStatus _ _ | EvPutResults _ _ => False
  end.

(** ** Summaries of the runnables *)

Section Summaries.
Context (E : environment).

Definition script_header (label script_path log_file : string)
    (parameters : option json) : list event :=
  [EvLogOpen log_file;
   EvLogWrite log_file
     ("Executing " +:+ label +:+ " script: " +:+ script_path +:+ LF);
   EvLogWrite log_file
     ("Parameters: " +:+ json_dumps E parameters +:+ LF +:+ LF)].

Definition script_output (log_file stdout stderr : string) : list event :=
  [EvLogWrite log_file ("=== STDOUT ===" +:+ LF);
   EvLogWrite log_file stdout;
   EvLogWrite log_file (LF +:+ "=== STDERR ===" +:+ LF);
   EvLogWrite log_file stderr].

(** The five ways a script run ends, each with its effects. *)
Inductive script_run (interpreter label script_path exec_dir log_file : string)
    (parameters : option json) (timeout : Z)
  : outcome json -> list event -> Prop :=
| script_timed_out stdout stderr :
    run E [interpreter; script_path] exec_dir timeout
      = TimedOut stdout stderr ->
    script_run interpreter label script_path exec_dir log_file parameters
      timeout
      (Raised (Exception (label +:+ " script execution timed out after "
                          +:+ pretty timeout +:+ " seconds")))
      (script_header label script_path log_file parameters
       ++ [EvSpawn [interpreter; script_path] exec_dir timeout])
| script_run_error msg :
    run E [interpreter; script_path] exec_dir timeout = RunError msg ->
    script_run interpreter label script_path exec_dir log_file parameters
      timeout
      (Raised (Exception msg))
      (script_header label script_path log_file parameters
       ++ [EvSpawn [interpreter; script_path] exec_dir timeout])
| script_exit_nonzero returncode stdout stderr :
    run E [interpreter; script_path] exec_dir timeout
      = Completed returncode stdout stderr ->
    returncode ≠ 0 ->
    script_run interpreter label script_path exec_dir log_file parameters
      timeout
      (Raised (Exception (label +:+ " script failed with code "
                          +:+ pretty returncode +:+ ": " +:+ stderr)))
      (script_header label script_path log_file parameters
       ++ [EvSpawn [interpreter; script_path] exec_dir timeout]
       ++ script_output log_file stdout stderr)
| script_exit_json stdout stderr v :
    run E [interpreter; script_path] exec_dir timeout
      = Completed 0 stdout stderr ->
    json_loads E stdout = inl v ->
    script_run interpreter label script_path exec_dir log_file parameters
      timeout
      (Returned v)
      (script_header label script_path log_file parameters
       ++ [EvSpawn [interpreter; script_path] exec_dir timeout]
       ++ script_output log_file stdout stderr)
| script_exit_text stdout stderr msg :
    run E [interpreter; script_path] exec_dir timeout
      = Completed 0 stdout stderr ->
    json_loads E stdout = inr msg ->
    script_run interpreter label script_path exec_dir log_file parameters
      timeout
      (Returned (text_result stdout))
      (script_header label script_path log_file parameters
       ++ [EvSpawn [interpreter; script_path] exec_dir timeout]
       ++ script_output log_file stdout stderr).

(** The default analysis: its result or one wrapped error, after effects
    that start no process. *)
Definition default_run (log_file : string) (o : outcome json)
    (evs : list event) : Prop :=
  launches evs = [LaunchDefault]
  ∧ Forall (runner_event log_file) evs
  ∧ match o with
    | Returned _ => True
    | Raised e =>
        ∃ msg, e = Exception ("Default cohort analysis failed: " +:+ msg)
    end.
End Summaries.

(** ** Summary of an execution *)

Section LifecycleSummary.
Context (E : environment).

(** The runnable [execute_study] starts, by the priority of its
    [if r_scripts: ... elif py_scripts: ... else: ...]. *)
Inductive runnable_run (request : ExecutionRequest)
  : outcome json -> list event -> Prop :=
| run_r_script script rest o evs :
    glob E (study_dir_of request) ".R" = script :: rest ->
    script_run E "Rscript" "R" script (exec_dir_of request)
      (log_file_of request) (Request.parameters request)
      (Request.timeout request) o evs ->
    runnable_run request o evs
| run_python_script script rest o evs :
    glob E (study_dir_of request) ".R" = [] ->
    glob E (study_dir_of request) ".py" = script :: rest ->
    script_run E "python3" "Python" script (exec_dir_of request)
      (log_file_of request) (Request.parameters request)
      (Request.timeout request) o evs ->
    runnable_run request o evs
| run_default o evs :
    glob E (study_dir_of request) ".R" = [] ->
    glob E (study_dir_of request) ".py" = [] ->
    default_run (log_file_of request) o evs ->
    runnable_run request o evs.

(** The three records [execute_study] writes to [status.json]. *)
Definition running_status (request : ExecutionRequest) (w : world)
  : ExecutionStatus :=
  {| study_id := Request.study_id request;
     execution_id := Request.execution_id request;
     status := "running";
     created_at := utcnow_at E (clock_reads w);
     completed_at := None;
     error_message := None;
     results_available := false |}.

Definition completed_status (request : ExecutionRequest) (w : world)
  : ExecutionStatus :=
  set_results_available true
    (set_completed_at (Some (utcnow_at E (S (clock_reads w))))
       (set_status "completed" (running_status request w))).

Definition failed_status (request : ExecutionRequest) (w : world) (e : exn)
  : ExecutionStatus :=
  set_completed_at (Some (utcnow_at E (S (clock_reads w))))
    (set_error_message (Some (str E e))
       (set_status "failed" (running_status request w))).

Definition study_not_found_error : exn :=
  HTTPException 404 "Study not found".

(** The three ways [execute_study] ends, each with all its effects. *)
Inductive study_run (request : ExecutionRequest) (w : world)
  : outcome ExecutionStatus -> list event -> Prop :=
| study_not_found :
    listdir E (study_dir_of request) = None ->
    study_run request w
      (Raised (HTTPException 500
                 ("Execution failed: " +:+ str E study_not_found_error)))
      [EvMkdir (exec_dir_of request);
       EvPutStatus (status_file_of request) (running_status request w);
       EvPutStatus (status_file_of request)
         (failed_status request w study_not_found_error)]
| study_completed results evs :
    listdir E (study_dir_of request) ≠ None ->
    runnable_run request (Returned results) evs ->
    study_run request w
      (Returned (completed_status request w))
      ([EvMkdir (exec_dir_of request);
        EvPutStatus (status_file_of request) (running_status request w)]
       ++ evs
       ++ [EvPutResults (results_file_of request) results;
           EvPutStatus (status_file_of request)
             (completed_status request w)])
| study_failed e evs :
    listdir E (study_dir_of request) ≠ None ->
    runnable_run request (Raised e) evs ->
    study_run request w
      (Raised (HTTPException 500 ("Execution failed: " +:+ str E e)))
      ([EvMkdir (exec_dir_of request);
        EvPutStatus (status_file_of request) (running_status request w)]
       ++ evs
       ++ [EvPutStatus (status_file_of request)
             (failed_status request w e)]).

(** The world in which the runnable starts. *)
Definition started (request : ExecutionRequest) (w : world) : world :=
  {| files :=
       replay [EvMkdir (exec_dir_of request);
               EvPutStatus (status_file_of request)
                 (running_status request w)] (files w);
     local_status := Some (running_status request w);
     clock_reads := S (clock_reads w);
     trace := trace w ++ [EvMkdir (exec_dir_of request);
                          EvPutStatus (status_file_of request)
                            (running_status request w)] |}.

(** The script [execute_study] runs, with its interpreter and the label
    of its messages. *)
Inductive chosen_script (request : ExecutionRequest)
  : string -> string -> string -> Prop :=
| chosen_r script rest :
    glob E (study_dir_of request) ".R" = script :: rest ->
    chosen_script request "Rscript" "R" script
| chosen_python script rest :
    glob E (study_dir_of request) ".R" = [] ->
    glob E (study_dir_of request) ".py" = script :: rest ->
    chosen_script request "python3" "Python" script.

End LifecycleSummary.

(** What [execute_study] added to the trace. *)
Definition effects_of (E : environment) (request : ExecutionRequest)
    (w : world) : list event :=
  drop (length (trace w)) (trace (execute_study E request w).2).

(** The record [execute_study] writes to [status.json] when the results
    file refused to open with [msg]: the [except] block sets the state, the
    message and a new completion time on the record the [try] block had
    already marked completed. *)
Definition refused_status (E : environment) (request : ExecutionRequest)
    (w : world) (msg : string) : ExecutionStatus :=
  set_completed_at (Some (utcnow_at E (S (S (clock_reads w)))))
    (set_error_message (Some msg)
       (set_status "failed" (completed_status E request w))).

(** ** Properties of status records and stores *)

Definition terminal (s : ExecutionStatus) : Prop :=
  status s = "completed" ∨ status s = "failed".

(** The invariant of [ExecutionStatus]; [has_results] says whether a
    results artefact exists for the execution. *)
Definition status_invariant (has_results : Prop) (s : ExecutionStatus)
  : Prop :=
  (is_Some (completed_at s) ↔ terminal s)
  ∧ (results_available s = true → status s = "completed" ∧ has_results)
  ∧ (is_Some (error_message s) → status s = "failed").

(** The states the engine writes. *)
Definition engine_state (v : string) : Prop :=
  v = "running" ∨ v = "completed" ∨ v = "failed".

Definition empty_store : store :=
  {| status_files := ∅; results_files := ∅; log_files := ∅ |}.

(** The stores a reader can meet: the empty one, and every store reached
    part of the way through an execution that started in such a store. *)
Inductive observable (E : environment) : store -> Prop :=
| observable_empty : observable E empty_store
| observable_during request w pre post :
    observable E (files w) ->
    effects_of E request w = pre ++ post ->
    observable E (replay pre (files w)).

(** [name] is the first entry of a directory listing matching [*suffix]. *)
Definition first_matching (suffix : string) (names : list string)
    (name : string) : Prop :=
  ∃ before after,
    names = before ++ name :: after
    ∧ endswith name suffix = true
    ∧ Forall (fun n => endswith n suffix = false) before.

Definition none_matching (suffix : string) (names : list string) : Prop :=
  Forall (fun n => endswith n suffix = false) names.

(** JSON documents that are neither an object nor an array. *)
Definition scalar (v : json) : Prop :=
  match v with
  | JNull | JBool _ | JInt _ | JFloat _ | JStr _ => True
  | JArr _ | JObj _ => False
  end.

(** Every status record that [evs] writes, starting from the store [st],
    satisfies [P] in the store as it is when the record is written. *)
Fixpoint persists_satisfy (P : store -> string -> ExecutionStatus -> Prop)
    (evs : list event) (st : store) : Prop :=
  match evs with
  | [] => True
  | ev :: evs' =>
      match ev with
      | EvPutStatus f s => P st f s
      | _ => True
      end
      ∧ persists_satisfy P evs' (apply_event ev st)
  end.

(** [needle] occurs somewhere in [text]. *)
Definition occurs_in (needle text : string) : bool :=
  match String.index 0 needle text with
  | Some _ => true
  | None => false
  end.

(** The resolver as the specification words it: among the files of a kind,
    the first in lexicographic order. *)
Module SpecResolver.
Inductive RunnableChoice : Type :=
| R (file : string)
| Python (file : string)
| DefaultAnalysis.

Definition lexicographic_first (names : list string) : option string :=
  foldr (fun n acc =>
           match acc with
           | None => Some n
           | Some m => Some (if String.leb n m then n else m)
           end) None names.

Definition resolve (names : list string) : RunnableChoice :=
  match lexicographic_first (filter (fun n => endswith n ".R" = true) names)
  with
  | Some f => R f
  | None =>
      match lexicographic_first
              (filter (fun n => endswith n ".py" = true) names) with
      | Some f => Python f
      | None => DefaultAnalysis
      end
  end.
End SpecResolver.

(** ** Concrete surroundings *)

Module Examples.
(** [str] of Starlette's [HTTPException]: status code, colon, detail. *)
Definition starlette_str (e : exn) : string :=
  match e with
  | HTTPException code detail => pretty code +:+ ": " +:+ detail
  | TimeoutExpired _ _ => "timed out"
  | Exception msg => msg
  end.

(** A decoder for three documents, enough to run the examples. *)
Definition decode (text : string) : json + string :=
  if String.eqb text "42" then inl (JInt 42)
  else if String.eqb text "null" then inl JNull
  else if String.eqb text "[]" then inl (JArr [])
  else inr "Expecting value".

(** Study [s1] holds [b.R], [a.py] and [a.R], listed in that order; study
    [s2] only its metadata; study [s3] one Python script; no other study
    exists. *)
Definition studies (dir : string) : option (list string) :=
  if String.eqb dir "/studies/s1" then Some ["b.R"; "a.py"; "a.R"]
  else if String.eqb dir "/studies/s2" then Some ["metadata.json"]
  else if String.eqb dir "/studies/s3" then Some ["metadata.json"; "run.py"]
  else None.

(** Surroundings in which every child process ends as [o]. *)
Definition env (o : run_outcome) : environment :=
  {| utcnow_at := fun n => 1000 + Z.of_nat n;
     listdir := studies;
     run := fun _ _ _ => o;
     read_sql := fun _ => inl [[("n", JInt 1)]];
     json_loads := decode;
     json_dumps := fun _ => "null";
     library_str := starlette_str |}.

(** The child prints the JSON number 42 and exits with code 0. *)
Definition prints_42 : environment := env (Completed 0 "42" EmptyString).

(** The child prints text that is not JSON and exits with code 0. *)
Definition prints_text : environment :=
  env (Completed 0 "not json" EmptyString).

(** The child writes [boom] to stderr and exits with code 1. *)
Definition exits_1 : environment := env (Completed 1 EmptyString "boom").

(** The child is stopped at the timeout, having written to both streams. *)
Definition times_out : environment :=
  env (TimedOut "partial-out" "partial-err").

Definition request (study : string) : ExecutionRequest :=
  {| Request.study_id := study;
     Request.execution_id := "e1";
     Request.parameters := None;
     Request.timeout := 10 |}.

Definition world0 : world :=
  {| files := empty_store; local_status := None; clock_reads := 0;
     trace := [] |}.

(** The world a reader meets when the execution of study [s1] has written
    its first status record and nothing more. *)
Definition midway : world :=
  {| files :=
       replay (take 2 (effects_of prints_42 (request "s1") world0))
         (files world0);
     local_status := None; clock_reads := 0; trace := [] |}.
End Examples.

(** ** The other reads of the backend *)

(** [get_execution_results] of the backend: the content of [results.json],
    or not found. *)
Definition get_execution_results (study_id' execution_id' : string)
  : M json :=
  fun w =>
    let results_file :=
      path_join (path_join (path_join RESULTS_DIR study_id') execution_id')
        "results.json" in
    match results_files (files w) !! results_file with
    | None => (Raised (HTTPException 404 "Results not found"), w)
    | Some r => (Returned r, w)
    end.

(** [get_execution_logs] of the backend: the content of [execution.log],
    or not found. *)
Definition get_execution_logs (study_id' execution_id' : string)
  : M string :=
  fun w =>
    let logs_file :=
      path_join (path_join (path_join RESULTS_DIR study_id') execution_id')
        "execution.log" in
    match log_files (files w) !! logs_file with
    | None => (Raised (HTTPException 404 "Logs not found"), w)
    | Some text => (Returned text, w)
    end.

(** ** More readings of the trace *)

(** The child processes started, each with its command, working directory
    and timeout. *)
Definition spawns (evs : list event) : list (list string * string * Z) :=
  omap (fun ev => match ev with
                  | EvSpawn cmd cwd timeout => Some (cmd, cwd, timeout)
                  | _ => None
                  end) evs.

Definition queries (evs : list event) : list query :=
  omap (fun ev => match ev with
                  | EvQuery q => Some q
                  | _ => None
                  end) evs.

(** The texts written to [log_file], in order, as one text. *)
Definition log_text (log_file : string) (evs : list event) : string :=
  foldr (fun ev acc =>
           match ev with
           | EvLogWrite f text =>
               if bool_decide (f = log_file) then text +:+ acc else acc
           | _ => acc
           end) EmptyString evs.

(** Effects that touch no artefact file but those of [request]. *)
Definition own_event (request : ExecutionRequest) (ev : event) : Prop :=
  match ev with
  | EvPutStatus f _ => f = status_file_of request
  | EvPutResults f _ => f = results_file_of request
  | EvLogOpen f | EvLogWrite f _ => f = log_file_of request
  | EvMkdir _ | EvSpawn _ _ _ | EvDefaultAnalysis | EvQuery _ => True
  end.

(** Effects that neither open a log nor write status or results. *)
Definition appending_event (log_file : string) (ev : event) : Prop :=
  match ev with
  | EvLogWrite f _ => f = log_file
  | EvSpawn _ _ _ | EvDefaultAnalysis | EvQuery _ => True
  | EvLogOpen _ | EvMkdir _ | EvPutStatus _ _ | EvPutResults _ _ => False
  end.

(** The effects of a runnable open the log once, before any write. *)
Definition opens_log_first (log_file : string) (evs : list event) : Prop :=
  ∃ rest,
    (evs = EvLogOpen log_file :: rest
     ∨ evs = EvDefaultAnalysis :: EvLogOpen log_file :: rest)
    ∧ Forall (appending_event log_file) rest.

(** The runnable [execute_study] calls: the value of its
    [if r_scripts: ... elif py_scripts: ... else: ...]. *)
Definition run_selected (E : environment) (request : ExecutionRequest)
  : M json :=
  match glob E (study_dir_of request) ".R" with
  | script :: _ =>
      execute_r_script E script (exec_dir_of request) (log_file_of request)
        (Request.parameters request) (Request.timeout request)
  | [] =>
      match glob E (study_dir_of request) ".py" with
      | script :: _ =>
          execute_python_script E script (exec_dir_of request)
            (log_file_of request) (Request.parameters request)
            (Request.timeout request)
      | [] =>
          run_default_cohort_analysis E (exec_dir_of request)
            (log_file_of request)
      end
  end.

(** The effects that end an execution whose runnable ended as [o]. *)
Definition closing_effects (E : environment) (request : ExecutionRequest)
    (w : world) (o : outcome json) : list event :=
  match o with
  | Returned results =>
      [EvPutResults (results_file_of request) results;
       EvPutStatus (status_file_of request) (completed_status E request w)]
  | Raised e =>
      [EvPutStatus (status_file_of request) (failed_status E request w e)]
  end.

(** What the caller of [execute_study] gets when the runnable ended as
    [o]. *)
Definition closing_outcome (E : environment) (request : ExecutionRequest)
    (w : world) (o : outcome json) : outcome ExecutionStatus :=
  match o with
  | Returned _ => Returned (completed_status E request w)
  | Raised e => Raised (HTTPException 500 ("Execution failed: " +:+ str E e))
  end.

(** The queries of the default analysis, in the order it issues them. *)
Definition default_queries : list query :=
  [Demographics; VisitStatistics; IcuStatistics; TopDiagnoses].

(** The effects of a default analysis whose four queries succeed, by the
    row counts of the demographics and the diagnoses. *)
Definition default_effects (log_file : string)
    (demographics diagnoses : nat) : list event :=
  [EvDefaultAnalysis; EvLogOpen log_file;
   EvLogWrite log_file ("Running default cohort analysis" +:+ LF +:+ LF);
   EvQuery Demographics;
   EvLogWrite log_file
     ("Demographics: " +:+ pretty demographics +:+ " rows" +:+ LF);
   EvQuery VisitStatistics;
   EvLogWrite log_file ("Visit statistics calculated" +:+ LF);
   EvQuery IcuStatistics;
   EvLogWrite log_file ("ICU statistics calculated" +:+ LF);
   EvQuery TopDiagnoses;
   EvLogWrite log_file
     ("Top diagnoses: " +:+ pretty diagnoses +:+ " found" +:+ LF)].

(** ** The backend's execution endpoint *)

(** [execute_study] of [backend-api/main.py]: it checks that the study
    exists and forwards the request to the code executor over HTTP. *)
Module BackendApi.

(** [class StudyExecution(BaseModel)] *)
Record StudyExecution : Type := {
  study_id : string;
  execution_id : string;
  parameters : option json;
}.

(** What [response] of [client.post] shows: [response.status_code],
    [response.text], and [response.json()], a document or the message of
    the error it raises. *)
Record response : Type := {
  status_code : Z;
  text : string;
  json_body : json + string;
}.

(** What is raised inside the [try:] block: [httpx.HTTPError], which has a
    handler of its own, or any other exception. *)
Inductive raised : Type :=
| HTTPError (msg : string)
| Other (e : exn).

(** What the endpoint reads from its surroundings. *)
Record surroundings : Type := {
  (** [study_dir.exists()] by path *)
  dir_exists : string -> bool;
  (** [str(uuid.uuid4())] *)
  uuid4 : string;
  (** [client.post(url, json=payload, timeout=300.0)]: a response, or what
      the call raises *)
  post : string -> json -> response + raised;
  (** [StudyStatus] built from the decoded answer: the record, or the
      message of the validation error *)
  validate : json -> Backend.StudyStatus + string;
  (** [str(e)] for the exception classes that libraries define *)
  library_str : exn -> string;
}.

Definition CODE_EXECUTION_URL : string := "http://code-executor:8001".

(** [str(e)] *)
Definition str (B : surroundings) (e : exn) : string :=
  match e with
  | Exception msg => msg
  | _ => library_str B e
  end.

(** The JSON body sent to the code executor. *)
Definition payload (B : surroundings) (study_id' : string)
    (execution : option StudyExecution) : json :=
  JObj [("study_id", JStr study_id');
        ("execution_id",
         JStr match execution with
              | None => uuid4 B
              | Some ex => execution_id ex
              end);
        ("parameters",
         match execution with
         | None => JObj []
         | Some ex =>
             match parameters ex with
             | Some p => p
             | None => JNull
             end
         end)].

(** The [try:] block of [execute_study], with the requests it posts. *)
Definition execute_study_try (B : surroundings) (study_id' : string)
    (execution : option StudyExecution)
  : (raised + Backend.StudyStatus) * list (string * json) :=
  if negb (dir_exists B (path_join STUDIES_DIR study_id'))
  then (inl (Other (HTTPException 404 "Study not found")), [])
  else
    let url := CODE_EXECUTION_URL +:+ "/execute" in
    let body := payload B study_id' execution in
    (match post B url body with
     | inr failure => inl failure
     | inl resp =>
         if bool_decide (status_code resp ≠ 200)
         then inl (Other (HTTPException (status_code resp)
                            ("Code executor error: " +:+ text resp)))
         else
           match json_body resp with
           | inr msg => inl (Other (Exception msg))
           | inl result =>
               match validate B result with
               | inl s => inr s
               | inr msg => inl (Other (Exception msg))
               end
           end
     end, [(url, body)]).

(** [@app.post("/studies/{study_id}/execute")  async def execute_study] *)
Definition execute_study (B : surroundings) (study_id' : string)
    (execution : option StudyExecution)
  : outcome Backend.StudyStatus * list (string * json) :=
  match execute_study_try B study_id' execution with
  | (inr s, posts) => (Returned s, posts)
  | (inl (HTTPError msg), posts) =>
      (Raised (HTTPException 503 ("Code executor unavailable: " +:+ msg)),
       posts)
  | (inl (Other e), posts) =>
      (Raised (HTTPException 500 ("Execution failed: " +:+ str B e)), posts)
  end.
End BackendApi.

(** ** The study registry of the backend *)

(** [register_study], [get_study] and [list_studies] of
    [backend-api/main.py], over the study directories under [/studies]:
    per study id, the files of the directory by name.  Writes to these
    files succeed, as in the model of the executor.  The directories are
    followed for uploads whose file name is a plain name ([plain_name]):
    [study_dir / study_file.filename] is then the entry of that name in
    the directory of the study; any other text names a path elsewhere, or
    none, and what is said below about the files of a registered study is
    said for plain names. *)
Module Registry.

(** [class StudyPackage(BaseModel)] *)
Record StudyPackage : Type := {
  study_id : string;
  study_name : string;
  description : option string;
  study_type : string;
  researcher : string;
  institution : string;
  created_at : Z;
}.

(** [UploadFile]: [study_file.filename] and the bytes read from it. *)
Record UploadFile : Type := {
  filename : string;
  content : string;
}.

Record surroundings : Type := {
  (** [str(uuid.uuid4())] *)
  uuid4 : string;
  (** [datetime.utcnow()], the default of [created_at] *)
  utcnow : Z;
  (** [json.dump(metadata.model_dump(mode='json'), f, indent=2,
      default=str)]: the text written *)
  encode : StudyPackage -> string;
  (** [StudyPackage] built from [json.load(f)]: the record, or the message
      of the error raised *)
  decode : string -> StudyPackage + string;
}.

(** Writing [text] to the file [name] of the directory of [study]. *)
Definition write_file (study name text : string)
    (st : gmap string (gmap string string)) : gmap string (gmap string string) :=
  <[study := <[name := text]> (default ∅ (st !! study))]> st.

(** [study_dir.mkdir(exist_ok=True)] *)
Definition mkdir (study : string) (st : gmap string (gmap string string))
  : gmap string (gmap string string) :=
  <[study := default ∅ (st !! study)]> st.

(** [@app.post("/studies")  async def register_study]: the metadata
    returned and the directories after it. *)
Definition register_study (R : surroundings) (study_file : UploadFile)
    (study_name' description' researcher' institution' : string)
    (st : gmap string (gmap string string))
  : StudyPackage * gmap string (gmap string string) :=
  let study_id' := uuid4 R in
  let st1 := mkdir study_id' st in
  let st2 := write_file study_id' (filename study_file) (content study_file)
               st1 in
  let metadata :=
    {| study_id := study_id';
       study_name := if String.eqb study_name' EmptyString
                     then filename study_file else study_name';
       description := Some description';
       study_type := "cohort_analysis";
       researcher := researcher';
       institution := institution';
       created_at := utcnow R |} in
  (metadata, write_file study_id' "metadata.json" (encode R metadata) st2).

(** The content of [metadata.json] of a study, when the file exists. *)
Definition metadata_file (study : string)
    (st : gmap string (gmap string string)) : option string :=
  st !! study ≫= (.!! "metadata.json").

(** [@app.get("/studies/{study_id}")  async def get_study] *)
Definition get_study (R : surroundings) (study_id' : string)
    (st : gmap string (gmap string string)) : outcome StudyPackage :=
  match metadata_file study_id' st with
  | None => Raised (HTTPException 404 "Study not found")
  | Some text =>
      match decode R text with
      | inl metadata => Returned metadata
      | inr msg => Raised (Exception msg)
      end
  end.

(** [@app.get("/studies")  async def list_studies], over the directories
    in the order [STUDIES_DIR.iterdir()] yields them. *)
Fixpoint list_studies (R : surroundings) (listing : list string)
    (st : gmap string (gmap string string)) : outcome (list StudyPackage) :=
  match listing with
  | [] => Returned []
  | study :: listing' =>
      match metadata_file study st with
      | None => list_studies R listing' st
      | Some text =>
          match decode R text with
          | inr msg => Raised (Exception msg)
          | inl metadata =>
              match list_studies R listing' st with
              | Returned studies => Returned (metadata :: studies)
              | Raised e => Raised e
              end
          end
      end
  end.
End Registry.

(** [list_executions] of the backend, over the entries of the study's
    results directory in the order [results_dir.iterdir()] yields them;
    [None] when that directory does not exist.  Each answer is the content
    of one [status.json]. *)
Definition list_executions (listing : option (list string))
    (study_id' : string) : M (list ExecutionStatus) :=
  fun w =>
    match listing with
    | None => (Returned [], w)
    | Some names =>
        (Returned
           (omap (fun execution =>
                    status_files (files w)
                      !! path_join (path_join (path_join RESULTS_DIR
                                                 study_id') execution)
                           "status.json") names), w)
    end.

(** ** More concrete surroundings *)

Module Scenarios.
(** The database answers every query but [failing] with one row, and
    [failing] with [rows_or_error]. *)
Definition database (failing : query) (rows_or_error : records + string)
  : environment :=
  {| utcnow_at := fun n => 1000 + Z.of_nat n;
     listdir := Examples.studies;
     run := fun _ _ _ => RunError "no child process expected";
     read_sql := fun q =>
       match failing, q with
       | Demographics, Demographics | VisitStatistics, VisitStatistics
       | IcuStatistics, IcuStatistics | TopDiagnoses, TopDiagnoses =>
           rows_or_error
       | _, _ => inl [[("n", JInt 1)]]
       end;
     json_loads := Examples.decode;
     json_dumps := fun _ => "null";
     library_str := Examples.starlette_str |}.

(** The ICU query fails. *)
Definition icu_fails : environment :=
  database IcuStatistics (inr "relation cdm.visit_detail does not exist").

(** The visit statistics come back without a row. *)
Definition no_visits : environment := database VisitStatistics (inl []).

(** The interpreter is not installed. *)
Definition no_interpreter : environment :=
  Examples.env (RunError "No such file or directory: Rscript").

(** A world that holds the status of an earlier execution [e0] of study
    [s1]. *)
Definition after_e0 : world :=
  {| files :=
       put_status "/results/s1/e0/status.json"
         {| study_id := "s1"; execution_id := "e0"; status := "completed";
            created_at := 1; completed_at := Some 2; error_message := None;
            results_available := true |} empty_store;
     local_status := None; clock_reads := 0; trace := [] |}.

(** A backend that finds no study directory. *)
Definition no_studies : BackendApi.surroundings :=
  {| BackendApi.dir_exists := fun _ => false;
     BackendApi.uuid4 := "u1";
     BackendApi.post := fun _ _ => inr (BackendApi.HTTPError "unreachable");
     BackendApi.validate := fun _ => inr "no status";
     BackendApi.library_str := Examples.starlette_str |}.

(** A backend whose executor answers every request with 404. *)
Definition executor_answers_404 : BackendApi.surroundings :=
  {| BackendApi.dir_exists := fun _ => true;
     BackendApi.uuid4 := "u1";
     BackendApi.post := fun _ _ =>
       inl {| BackendApi.status_code := 404;
              BackendApi.text := "Not Found";
              BackendApi.json_body := inr "Expecting value" |};
     BackendApi.validate := fun _ => inr "no status";
     BackendApi.library_str := Examples.starlette_str |}.

(** The upload [analysis.R], registered under the id [u1] at time 7. *)
Definition upload : Registry.UploadFile :=
  {| Registry.filename := "analysis.R";
     Registry.content := "cat(42)" |}.

Definition package : Registry.StudyPackage :=
  {| Registry.study_id := "u1";
     Registry.study_name := "analysis.R";
     Registry.description := Some "demo";
     Registry.study_type := "cohort_analysis";
     Registry.researcher := "Test Researcher";
     Registry.institution := "Test Institution";
     Registry.created_at := 7 |}.

(** A registry whose metadata text is the study id and decodes to
    [package]. *)
Definition registry : Registry.surroundings :=
  {| Registry.uuid4 := "u1";
     Registry.utcnow := 7;
     Registry.encode := Registry.study_id;
     Registry.decode := fun _ => inl package |}.

(** The study directories after registering [upload] in an empty
    registry. *)
Definition registered : gmap string (gmap string string) :=
  (Registry.register_study registry upload EmptyString "demo"
     "Test Researcher" "Test Institution" ∅).2.

(** An executor that lists the directory of study [u1] with the metadata
    first. *)
Definition executor : environment :=
  {| utcnow_at := fun n => 1000 + Z.of_nat n;
     listdir := fun dir =>
       if String.eqb dir "/studies/u1"
       then Some ["metadata.json"; "analysis.R"] else None;
     run := fun _ _ _ => Completed 0 "42" EmptyString;
     read_sql := fun _ => inl [[("n", JInt 1)]];
     json_loads := Examples.decode;
     json_dumps := fun _ => "null";
     library_str := Examples.starlette_str |}.
End Scenarios.

(** * Proofs *)

(** The example requests are requests the endpoint accepts. *)
Example example_request_valid study :
  Request.valid (Examples.request study).
Proof. unfold Request.valid. cbn. lia. Qed.

(** ** Running the code symbolically *)

Lemma world_eq (w1 w2 : world) :
  files w1 = files w2 -> local_status w1 = local_status w2 ->
  clock_reads w1 = clock_reads w2 -> trace w1 = trace w2 -> w1 = w2.
Proof. destruct w1, w2; simpl; intros; subst; reflexivity. Qed.

Lemma replay_app (evs1 evs2 : list event) (st : store) :
  replay (evs1 ++ evs2) st = replay evs2 (replay evs1 st).
Proof. unfold replay. apply foldl_app. Qed.

Lemma outcome_world_eq {A} (o : outcome A) (w1 w2 : world) :
  trace w1 = trace w2 -> files w1 = files w2 ->
  local_status w1 = local_status w2 -> clock_reads w1 = clock_reads w2 ->
  (o, w1) = (o, w2).
Proof. intros. f_equal. by apply world_eq. Qed.

(** Symbolic execution of the monadic code, up to the next reading of the
    environment. *)
Ltac run_code :=
  cbv beta iota zeta delta
    [execute_script run_default_cohort_analysis first_record try_except bind
     perform emit update_files subprocess_run pd_read_sql ret raise log_open
     log_write loads any_exception is_TimeoutExpired];
  cbn [files local_status clock_reads trace].

(** The same for the handler, with the runnables kept folded. *)
Ltac run_handler :=
  cbv beta iota zeta delta
    [try_except bind perform emit update_files ret raise any_exception
     assign_status read_status modify_status enter_frame utcnow mkdir
     write_status write_results];
  cbn [files local_status clock_reads trace].

(** The world reached is the starting world extended by a list of effects,
    found by unification on the trace. *)
Ltac reached :=
  apply outcome_world_eq;
  cbn [files local_status clock_reads trace extend];
  [ rewrite <- ?app_assoc; reflexivity | reflexivity .. ].

Section RunnerLemmas.
Context (E : environment).

Lemma execute_script_run interpreter label script exec_dir log_file
    parameters timeout w :
  ∃ o evs,
    execute_script E interpreter label script exec_dir log_file parameters
      timeout w = (o, extend w evs)
    ∧ script_run E interpreter label script exec_dir log_file parameters
        timeout o evs.
Proof.
  run_code.
  destruct (run E [interpreter; script] exec_dir timeout)
    as [rc out err|out err|msg] eqn:Hrun; run_code.
  - case_bool_decide as Hrc; run_code.
    + eexists _, _; split; [reached|].
      by eapply script_exit_nonzero.
    + subst rc.
      destruct (json_loads E out) as [v|msg] eqn:Hloads; run_code.
      * eexists _, _; split; [reached|]. by eapply script_exit_json.
      * eexists _, _; split; [reached|]. by eapply script_exit_text.
  - eexists _, _; split; [reached|]. by eapply script_timed_out.
  - eexists _, _; split; [reached|]. by eapply script_run_error.
Qed.

Lemma run_default_cohort_analysis_run exec_dir log_file w :
  ∃ o evs,
    run_default_cohort_analysis E exec_dir log_file w = (o, extend w evs)
    ∧ default_run log_file o evs.
Proof.
  unfold default_run. run_code.
  destruct (read_sql E Demographics) as [df1|m1]; run_code;
    [destruct (read_sql E VisitStatistics) as [df2|m2]; run_code;
     [destruct (read_sql E IcuStatistics) as [df3|m3]; run_code;
      [destruct (read_sql E TopDiagnoses) as [df4|m4]; run_code;
       [destruct df2 as [|r2 df2]; run_code;
        [|destruct df3 as [|r3 df3]; run_code]|]|]|]|];
    (eexists _, _; split; [reached|]);
    (split; [reflexivity|split; [repeat constructor|eauto]]).
Qed.
End RunnerLemmas.

Section Lifecycle.
Context (E : environment).

(** The runnable chosen runs from any world and leaves frame and clock
    alone. *)
Lemma runnable_runs (request : ExecutionRequest) (w : world) :
  ∃ o evs,
    match glob E (study_dir_of request) ".R" with
    | script :: _ =>
        execute_r_script E script (exec_dir_of request)
          (log_file_of request) (Request.parameters request)
          (Request.timeout request)
    | [] =>
        match glob E (study_dir_of request) ".py" with
        | script :: _ =>
            execute_python_script E script (exec_dir_of request)
              (log_file_of request) (Request.parameters request)
              (Request.timeout request)
        | [] =>
            run_default_cohort_analysis E (exec_dir_of request)
              (log_file_of request)
        end
    end w = (o, extend w evs)
    ∧ runnable_run E request o evs.
Proof.
  destruct (glob E (study_dir_of request) ".R") as [|r rs] eqn:HR.
  - destruct (glob E (study_dir_of request) ".py") as [|p ps] eqn:HP.
    + destruct (run_default_cohort_analysis_run E (exec_dir_of request)
                  (log_file_of request) w) as (o & evs & Heq & Hrun).
      exists o, evs. split; [exact Heq|]. by apply run_default.
    + destruct (execute_script_run E "python3" "Python" p
                  (exec_dir_of request) (log_file_of request)
                  (Request.parameters request) (Request.timeout request) w)
        as (o & evs & Heq & Hrun).
      exists o, evs. split; [exact Heq|]. by eapply run_python_script.
  - destruct (execute_script_run E "Rscript" "R" r
                (exec_dir_of request) (log_file_of request)
                (Request.parameters request) (Request.timeout request) w)
      as (o & evs & Heq & Hrun).
    exists o, evs. split; [exact Heq|]. by eapply run_r_script.
Qed.

(** [execute_study_try] up to the study check. *)
Lemma execute_study_try_not_found (request : ExecutionRequest) (w : world) :
  listdir E (study_dir_of request) = None ->
  execute_study_try E request w
  = (Raised study_not_found_error, started E request w).
Proof.
  intros Hdir. unfold execute_study_try. run_handler.
  rewrite bool_decide_eq_true_2 by exact Hdir. run_handler.
  apply outcome_world_eq; cbn [files local_status clock_reads trace started];
    [rewrite <- ?app_assoc; reflexivity | reflexivity ..].
Qed.

Lemma execute_study_run (request : ExecutionRequest) (w : world) :
  ∃ o evs w',
    execute_study E request w = (o, w')
    ∧ trace w' = trace w ++ evs
    ∧ files w' = replay evs (files w)
    ∧ study_run E request w o evs.
Proof.
  unfold execute_study, execute_study_try, execute_study_except. run_handler.
  case_bool_decide as Hdir; run_handler.
  - eexists _, _, _. split; [reflexivity|]. cbn [files trace].
    split; [rewrite <- ?app_assoc; reflexivity|].
    split; [reflexivity|]. by apply study_not_found.
  - match goal with
    | |- context [match ?m ?w1 with (_, _) => _ end] =>
        destruct (runnable_runs request w1) as (o & evs & Heq & Hrun);
        rewrite Heq
    end.
    destruct o as [results|e]; run_handler;
      cbn [extend files local_status clock_reads trace].
    + eexists _, _, _. split; [reflexivity|]. cbn [files trace].
      split; [rewrite <- ?app_assoc; reflexivity|].
      split; [by rewrite !replay_app|].
      by apply study_completed.
    + eexists _, _, _. split; [reflexivity|]. cbn [files trace].
      split; [rewrite <- ?app_assoc; reflexivity|].
      split; [by rewrite !replay_app|].
      by apply study_failed.
Qed.
End Lifecycle.

Lemma execute_study_effects E request w :
  study_run E request w (execute_study E request w).1 (effects_of E request w)
  ∧ trace (execute_study E request w).2 = trace w ++ effects_of E request w
  ∧ files (execute_study E request w).2
    = replay (effects_of E request w) (files w).
Proof.
  destruct (execute_study_run E request w)
    as (o & evs & w' & Heq & Ht & Hf & Hr).
  unfold effects_of. rewrite Heq. cbn [fst snd].
  rewrite Ht, drop_app_length. auto.
Qed.

(** Runnables write neither status nor results. *)
Lemma runner_events_persists log_file evs :
  Forall (runner_event log_file) evs ->
  status_persists evs = [] ∧ results_persists evs = [].
Proof.
  induction 1 as [|ev evs Hev _ [IHs IHr]]; [done|].
  unfold status_persists, results_persists in *.
  destruct ev; cbn in *; try done.
Qed.

Lemma runner_events_files log_file evs st :
  Forall (runner_event log_file) evs ->
  status_files (replay evs st) = status_files st
  ∧ results_files (replay evs st) = results_files st.
Proof.
  intros H. revert st.
  induction H as [|ev evs Hev _ IH]; intros st; [done|].
  change (replay (ev :: evs) st) with (replay evs (apply_event ev st)).
  destruct (IH (apply_event ev st)) as [-> ->].
  destruct ev; cbn in *; done.
Qed.

Section ScriptFacts.
Context (E : environment).

Lemma script_run_events interpreter label script exec_dir log_file
    parameters timeout o evs :
  script_run E interpreter label script exec_dir log_file parameters
    timeout o evs ->
  Forall (runner_event log_file) evs
  ∧ launches evs = [LaunchProcess [interpreter; script]].
Proof.
  destruct 1; (split; [repeat constructor|reflexivity]).
Qed.

Lemma runnable_run_events request o evs :
  runnable_run E request o evs ->
  Forall (runner_event (log_file_of request)) evs
  ∧ ∃ l, launches evs = [l].
Proof.
  destruct 1 as [script rest o evs _ Hrun|script rest o evs _ _ Hrun
                |o evs _ _ (Hl & Hev & _)].
  - apply script_run_events in Hrun as [? ?]; eauto.
  - apply script_run_events in Hrun as [? ?]; eauto.
  - eauto.
Qed.

Lemma chosen_script_run request interpreter label script o evs :
  chosen_script E request interpreter label script ->
  runnable_run E request o evs ->
  script_run E interpreter label script (exec_dir_of request)
    (log_file_of request) (Request.parameters request)
    (Request.timeout request) o evs.
Proof.
  intros Hc Hr.
  destruct Hc as [s rest HR|s rest HR HP];
    destruct Hr as [s' rest' o evs HR' Hrun|s' rest' o evs HR' HP' Hrun
                   |o evs HR' HP' Hrun]; congruence.
Qed.

Lemma chosen_script_listed request interpreter label script :
  chosen_script E request interpreter label script ->
  listdir E (study_dir_of request) ≠ None.
Proof.
  destruct 1 as [s rest H|s rest _ H]; unfold glob in H;
    destruct (listdir E (study_dir_of request)); done.
Qed.
End ScriptFacts.

(** The status file after an execution holds the record written last. *)
Lemma status_after_put evs f s st :
  status_files (replay (evs ++ [EvPutStatus f s]) st) !! f = Some s.
Proof. rewrite replay_app. cbn. apply lookup_insert_eq. Qed.

(** ** An execution from the run of its runnable *)

Lemma started_reached E request w :
  {| files :=
       apply_event
         (EvPutStatus (status_file_of request) (running_status E request w))
         (apply_event (EvMkdir (exec_dir_of request)) (files w));
     local_status := Some (running_status E request w);
     clock_reads := S (clock_reads w);
     trace := (trace w ++ [EvMkdir (exec_dir_of request)])
              ++ [EvPutStatus (status_file_of request)
                    (running_status E request w)] |}
  = started E request w.
Proof. apply world_eq; cbn; [done..|by rewrite <- app_assoc]. Qed.

(** Whatever the runnable does, [execute_study] wraps it between the
    running record and the closing writes. *)
Lemma execute_study_from_runner E request w o evs :
  listdir E (study_dir_of request) ≠ None ->
  run_selected E request (started E request w)
  = (o, extend (started E request w) evs) ->
  (execute_study E request w).1 = closing_outcome E request w o
  ∧ effects_of E request w
    = [EvMkdir (exec_dir_of request);
       EvPutStatus (status_file_of request) (running_status E request w)]
      ++ evs ++ closing_effects E request w o.
Proof.
  intros Hdir Hrun. unfold effects_of.
  unfold execute_study, execute_study_try, execute_study_except. run_handler.
  rewrite bool_decide_eq_false_2 by exact Hdir. run_handler.
  match goal with
  | |- context [match ?m ?w1 with (_, _) => _ end] =>
      change m with (run_selected E request);
      replace w1 with (started E request w)
        by (symmetry; apply (started_reached E request w))
  end.
  rewrite Hrun. destruct o as [results|e]; run_handler;
    cbn [extend started files local_status clock_reads trace fst snd
         closing_outcome closing_effects];
    (split; [reflexivity|]);
    rewrite <- !app_assoc, drop_app_length; reflexivity.
Qed.

(** ** The outcome of an execution *)




(** C2, as stated, fails: for the study [missing], which has no directory,
    the status file is absent before the request, and at the moment the
    handler raises [Study not found] it holds a record in state running. *)
Lemma running_record_exists_at_study_not_found :
  status_files (files Examples.world0)
    !! status_file_of (Examples.request "missing") = None
  ∧ ∃ w1 s,
      execute_study_try Examples.prints_42
        (Examples.request "missing") Examples.world0
      = (Raised (HTTPException 404 "Study not found"), w1)
      ∧ status_files (files w1)
          !! status_file_of (Examples.request "missing") = Some s
      ∧ status s = "running".
Proof.
  split; [reflexivity|].
  eexists _, _. split; [vm_compute; reflexivity|].
  split; vm_compute; reflexivity.
Qed.

(** C2, as amended: when the study directory does not exist, the handler
    has already written the running record when it raises
    [Study not found]; no child process and no default analysis is started,
    nothing is written to results or log; the error is caught, a failed
    record overwrites the running one, and the caller gets an HTTP 500
    error. *)
Theorem study_not_found_after_running_record E request w :
  listdir E (study_dir_of request) = None ->
  ∃ w1,
    execute_study_try E request w = (Raised study_not_found_error, w1)
    ∧ status_files (files w1) !! status_file_of request
      = Some (running_status E request w)
    ∧ launches (drop (length (trace w)) (trace w1)) = []
    ∧ (execute_study E request w).1
      = Raised (HTTPException 500
                  ("Execution failed: " +:+ str E study_not_found_error))
    ∧ effects_of E request w
      = [EvMkdir (exec_dir_of request);
         EvPutStatus (status_file_of request) (running_status E request w);
         EvPutStatus (status_file_of request)
           (failed_status E request w study_not_found_error)]
    ∧ status_files (files (execute_study E request w).2)
        !! status_file_of request
      = Some (failed_status E request w study_not_found_error).
Proof.
  intros Hdir. exists (started E request w).
  split; [by apply execute_study_try_not_found|].
  split; [cbn; apply lookup_insert_eq|].
  split; [cbn [started trace]; by rewrite drop_app_length|].
  destruct (execute_study_effects E request w) as (Hrun & _ & Hfiles).
  rewrite Hfiles.
  destruct Hrun as [_|results evs Hdir' _|e evs Hdir' _]; try done.
  split; [done|]. split; [done|]. cbn. apply lookup_insert_eq.
Qed.

(** The study [missing] has no directory; its execution writes the running
    record, then the failed one, and nothing else. *)
Lemma study_not_found_after_running_record_witness :
  listdir Examples.prints_42
    (study_dir_of (Examples.request "missing")) = None
  ∧ effects_of Examples.prints_42
      (Examples.request "missing") Examples.world0
    = [EvMkdir (exec_dir_of (Examples.request "missing"));
       EvPutStatus (status_file_of (Examples.request "missing"))
         (running_status Examples.prints_42
            (Examples.request "missing") Examples.world0);
       EvPutStatus (status_file_of (Examples.request "missing"))
         (failed_status Examples.prints_42
            (Examples.request "missing") Examples.world0
            study_not_found_error)].
Proof.
  split; [reflexivity|].
  destruct (study_not_found_after_running_record
              Examples.prints_42 (Examples.request "missing")
              Examples.world0 eq_refl) as (w1 & _ & _ & _ & _ & H & _).
  exact H.
Defined.

(** ** Status records and the invariant *)

Lemma persists_satisfy_app P evs1 evs2 st :
  persists_satisfy P (evs1 ++ evs2) st
  ↔ persists_satisfy P evs1 st ∧ persists_satisfy P evs2 (replay evs1 st).
Proof.
  revert st. induction evs1 as [|ev evs1 IH]; intros st; cbn; [tauto|].
  rewrite IH. change (foldl _ (apply_event ev st) evs1)
    with (replay evs1 (apply_event ev st)). tauto.
Qed.

Lemma persists_satisfy_runner P log_file evs st :
  Forall (runner_event log_file) evs -> persists_satisfy P evs st.
Proof.
  intros H. revert st. induction H as [|ev evs Hev _ IH]; intros st; [done|].
  split; [|apply IH]. by destruct ev.
Qed.

Lemma persists_satisfy_split P pre f s post st :
  persists_satisfy P (pre ++ EvPutStatus f s :: post) st ->
  P (replay pre st) f s.
Proof. rewrite persists_satisfy_app. cbn. tauto. Qed.

Lemma persists_satisfy_impl (P Q : store -> string -> ExecutionStatus -> Prop)
    evs st :
  (∀ st' f s, P st' f s -> Q st' f s) ->
  persists_satisfy P evs st -> persists_satisfy Q evs st.
Proof.
  intros HPQ. revert st. induction evs as [|ev evs IH]; intros st; [done|].
  cbn. intros [Hev Hrest]. split; [|by apply IH].
  destruct ev; auto.
Qed.

Lemma running_status_invariant E request w has_results :
  status_invariant has_results (running_status E request w).
Proof.
  unfold status_invariant, terminal, is_Some; cbn.
  split; [split; [by intros [? ?]|by intros [?|?]]|].
  split; [done|by intros [? ?]].
Qed.

Lemma completed_status_invariant E request w (has_results : Prop) :
  has_results -> status_invariant has_results (completed_status E request w).
Proof.
  intros H. unfold status_invariant, terminal, is_Some; cbn.
  split; [split; eauto|]. split; [done|by intros [? ?]].
Qed.

Lemma failed_status_invariant E request w e has_results :
  status_invariant has_results (failed_status E request w e).
Proof.
  unfold status_invariant, terminal, is_Some; cbn.
  split; [split; eauto|]. split; done.
Qed.

(** The records of one execution, each with the store it is written to. *)
Lemma execute_study_persists E request w :
  persists_satisfy
    (fun st f s =>
       f = status_file_of request
       ∧ engine_state (status s)
       ∧ status_invariant
           (is_Some (results_files st !! results_file_of request)) s)
    (effects_of E request w) (files w).
Proof.
  destruct (execute_study_effects E request w) as (Hrun & _ & _).
  destruct Hrun as [Hdir|results evs Hdir Hrun|e evs Hdir Hrun].
  - cbn. unfold engine_state.
    auto 8 using running_status_invariant, failed_status_invariant.
  - apply runnable_run_events in Hrun as [Hev _].
    rewrite !persists_satisfy_app. cbn. unfold engine_state.
    split; [auto 8 using running_status_invariant|].
    split; [by eapply persists_satisfy_runner|].
    split; [done|]. split; [|done]. split; [done|]. split; [auto|].
    apply completed_status_invariant. rewrite lookup_insert_eq. eauto.
  - apply runnable_run_events in Hrun as [Hev _].
    rewrite !persists_satisfy_app. cbn. unfold engine_state.
    split; [auto 8 using running_status_invariant|].
    split; [by eapply persists_satisfy_runner|].
    auto 8 using failed_status_invariant.
Qed.

(** While the results file opens, every status record [execute_study]
    writes goes to the status file of the execution and satisfies the
    invariant of [ExecutionStatus], with the results artefact looked up in
    the store as it is when the record is written. *)
Lemma status_invariant_when_results_written E request w pre f s post :
  effects_of E request w = pre ++ EvPutStatus f s :: post ->
  f = status_file_of request
  ∧ status_invariant
      (is_Some (results_files (replay pre (files w))
                  !! results_file_of request)) s.
Proof.
  intros Hevs. pose proof (execute_study_persists E request w) as H.
  rewrite Hevs in H. apply persists_satisfy_split in H. tauto.
Qed.

(** ** The invariant when the results file does not open *)

Lemma results_written_same_handler E request :
  StoreFailure.execute_study E None request = execute_study E request.
Proof. reflexivity. Qed.

Lemma refused_status_invariant E request w msg has_results :
  ¬ status_invariant has_results (refused_status E request w msg).
Proof. intros (_ & H & _). by destruct (H eq_refl) as [? _]. Qed.

(** An execution whose results file refuses to open, from the run of its
    runnable. *)
Lemma results_refused_from_runner E request w msg results evs :
  listdir E (study_dir_of request) ≠ None ->
  run_selected E request (started E request w)
  = (Returned results, extend (started E request w) evs) ->
  (StoreFailure.execute_study E (Some msg) request w).1
  = Raised (HTTPException 500 ("Execution failed: " +:+ msg))
  ∧ trace (StoreFailure.execute_study E (Some msg) request w).2
    = trace w
      ++ [EvMkdir (exec_dir_of request);
          EvPutStatus (status_file_of request) (running_status E request w)]
      ++ evs
      ++ [EvPutStatus (status_file_of request)
            (refused_status E request w msg)]
  ∧ files (StoreFailure.execute_study E (Some msg) request w).2
    = replay
        ([EvMkdir (exec_dir_of request);
          EvPutStatus (status_file_of request) (running_status E request w)]
         ++ evs
         ++ [EvPutStatus (status_file_of request)
               (refused_status E request w msg)]) (files w).
Proof.
  intros Hdir Hrun.
  unfold StoreFailure.execute_study, StoreFailure.execute_study_try,
    StoreFailure.write_results, execute_study_except.
  run_handler.
  rewrite bool_decide_eq_false_2 by exact Hdir. run_handler.
  match goal with
  | |- context [match ?m ?w1 with (_, _) => _ end] =>
      change m with (run_selected E request);
      replace w1 with (started E request w)
        by (symmetry; apply (started_reached E request w))
  end.
  rewrite Hrun. run_handler.
  cbn [extend started files local_status clock_reads trace fst snd str].
  split; [reflexivity|]. split.
  - rewrite <- !app_assoc. reflexivity.
  - rewrite !replay_app. reflexivity.
Qed.

(** C3: the invariant of [ExecutionStatus] is broken by the handler
    itself.  Take an execution that completes when [results.json] can be
    written, and let [open(results_file, "w")] fail with [msg] instead:
    the [try] block has already set [results_available], the [except]
    block does not take it back, so the last record written to
    [status.json] is in state failed with [results_available] true, no
    results artefact has been written, and the caller gets an HTTP 500
    error.  That record satisfies the invariant for no store. *)
Theorem failed_record_keeps_results_available E request w s0 msg :
  (execute_study E request w).1 = Returned s0 ->
  (StoreFailure.execute_study E (Some msg) request w).1
  = Raised (HTTPException 500 ("Execution failed: " +:+ msg))
  ∧ (∃ pre,
       trace (StoreFailure.execute_study E (Some msg) request w).2
       = trace w ++ pre ++ [EvPutStatus (status_file_of request)
                              (refused_status E request w msg)]
       ∧ results_persists pre = [])
  ∧ status_files (files (StoreFailure.execute_study E (Some msg) request w).2)
      !! status_file_of request
    = Some (refused_status E request w msg)
  ∧ results_files (files (StoreFailure.execute_study E (Some msg) request w).2)
    = results_files (files w)
  ∧ status (refused_status E request w msg) = "failed"
  ∧ error_message (refused_status E request w msg) = Some msg
  ∧ results_available (refused_status E request w msg) = true
  ∧ ∀ has_results,
      ¬ status_invariant has_results (refused_status E request w msg).
Proof.
  intros Hret.
  destruct (decide (listdir E (study_dir_of request) = None)) as [Hnone|Hdir].
  { destruct (execute_study_effects E request w) as (Hrun & _ & _).
    rewrite Hret in Hrun. inversion Hrun; congruence. }
  destruct (runnable_runs E request (started E request w))
    as (o & evs & Heq & Hrunnable).
  change (run_selected E request (started E request w)
          = (o, extend (started E request w) evs)) in Heq.
  destruct (execute_study_from_runner E request w o evs Hdir Heq)
    as [Ho _].
  rewrite Hret in Ho. destruct o as [results|e]; [|discriminate Ho].
  apply runnable_run_events in Hrunnable as [Hev _].
  destruct (results_refused_from_runner E request w msg results evs Hdir Heq)
    as (Hout & Htrace & Hfiles).
  split; [exact Hout|]. split.
  { exists ([EvMkdir (exec_dir_of request);
              EvPutStatus (status_file_of request)
                (running_status E request w)] ++ evs).
    split; [by rewrite Htrace, <- !app_assoc|].
    destruct (runner_events_persists _ _ Hev) as [_ Hr].
    unfold results_persists in *. by rewrite omap_app, Hr. }
  split.
  { rewrite Hfiles, !app_assoc. apply status_after_put. }
  split.
  { rewrite Hfiles, !replay_app. cbn.
    by destruct (runner_events_files (log_file_of request) evs
                   (put_status (status_file_of request)
                      (running_status E request w) (files w)) Hev)
      as [_ ->]. }
  split; [reflexivity|]. split; [reflexivity|]. split; [reflexivity|].
  intros has_results. apply refused_status_invariant.
Qed.

(** The R script of study [s1] prints 42 and exits with code 0, and
    [results.json] of the execution is a directory: the record left in
    [status.json] is failed with [results_available] true. *)
Lemma failed_record_keeps_results_available_witness :
  (execute_study Examples.prints_42 (Examples.request "s1")
     Examples.world0).1
  = Returned (completed_status Examples.prints_42 (Examples.request "s1")
                Examples.world0)
  ∧ status_files
      (files (StoreFailure.execute_study Examples.prints_42
                (Some "[Errno 21] Is a directory: '/results/s1/e1/results.json'")
                (Examples.request "s1") Examples.world0).2)
      !! "/results/s1/e1/status.json"
    = Some {| study_id := "s1"; execution_id := "e1"; status := "failed";
              created_at := 1000; completed_at := Some 1002;
              error_message :=
                Some "[Errno 21] Is a directory: '/results/s1/e1/results.json'";
              results_available := true |}
  ∧ results_files
      (files (StoreFailure.execute_study Examples.prints_42
                (Some "[Errno 21] Is a directory: '/results/s1/e1/results.json'")
                (Examples.request "s1") Examples.world0).2)
    = ∅.
Proof.
  assert ((execute_study Examples.prints_42 (Examples.request "s1")
             Examples.world0).1
          = Returned (completed_status Examples.prints_42
                        (Examples.request "s1") Examples.world0)) as Hret
    by (vm_compute; reflexivity).
  split; [exact Hret|].
  destruct (failed_record_keeps_results_available Examples.prints_42
              (Examples.request "s1") Examples.world0 _
              "[Errno 21] Is a directory: '/results/s1/e1/results.json'"
              Hret) as (_ & _ & Hstatus & Hresults & _).
  split; [exact Hstatus|exact Hresults].
Defined.

(** ** Counting the writes *)

Lemma status_persists_app evs1 evs2 :
  status_persists (evs1 ++ evs2) = status_persists evs1 ++ status_persists evs2.
Proof. apply omap_app. Qed.

Lemma results_persists_app evs1 evs2 :
  results_persists (evs1 ++ evs2)
  = results_persists evs1 ++ results_persists evs2.
Proof. apply omap_app. Qed.

Lemma study_run_persists E request w o evs :
  study_run E request w o evs ->
  ∃ s2,
    status_persists evs
    = [(status_file_of request, running_status E request w);
       (status_file_of request, s2)]
    ∧ (∃ pre, evs = pre ++ [EvPutStatus (status_file_of request) s2])
    ∧ ((s2 = completed_status E request w
        ∧ ∃ pre r,
            results_persists evs = [(results_file_of request, r)]
            ∧ evs = pre ++ [EvPutResults (results_file_of request) r;
                            EvPutStatus (status_file_of request) s2])
       ∨ ((∃ e, s2 = failed_status E request w e)
          ∧ results_persists evs = [])).
Proof.
  destruct 1 as [Hdir|results evs Hdir Hrun|e evs Hdir Hrun].
  - exists (failed_status E request w study_not_found_error).
    split; [reflexivity|]. split.
    + by exists [EvMkdir (exec_dir_of request);
                 EvPutStatus (status_file_of request)
                   (running_status E request w)].
    + right. eauto.
  - apply runnable_run_events in Hrun as [Hev _].
    apply runner_events_persists in Hev as [Hs Hr].
    exists (completed_status E request w).
    rewrite !status_persists_app, !results_persists_app, Hs, Hr.
    split; [reflexivity|]. split.
    + exists ([EvMkdir (exec_dir_of request);
               EvPutStatus (status_file_of request)
                 (running_status E request w)]
              ++ evs ++ [EvPutResults (results_file_of request) results]).
      by rewrite <- !app_assoc.
    + left. split; [done|].
      exists ([EvMkdir (exec_dir_of request);
               EvPutStatus (status_file_of request)
                 (running_status E request w)] ++ evs), results.
      split; [reflexivity|]. by rewrite <- !app_assoc.
  - apply runnable_run_events in Hrun as [Hev _].
    apply runner_events_persists in Hev as [Hs Hr].
    exists (failed_status E request w e).
    rewrite !status_persists_app, !results_persists_app, Hs, Hr.
    split; [reflexivity|]. split.
    + exists ([EvMkdir (exec_dir_of request);
               EvPutStatus (status_file_of request)
                 (running_status E request w)] ++ evs).
      by rewrite <- !app_assoc.
    + right. eauto.
Qed.

(** C8: every execution writes the status file exactly twice, first a
    record in state running and then a record in a terminal state; each
    write leaves the whole record in the file, whatever it held before;
    results are written once, right before a completed record, and never
    before a failed one. *)
Theorem two_status_persists E request w :
  ∃ s1 s2,
    status_persists (effects_of E request w)
    = [(status_file_of request, s1); (status_file_of request, s2)]
    ∧ status s1 = "running"
    ∧ terminal s2
    ∧ status_files (files (execute_study E request w).2)
        !! status_file_of request = Some s2
    ∧ (∀ evs f s st,
         status_files (replay (evs ++ [EvPutStatus f s]) st) !! f = Some s)
    ∧ ((status s2 = "completed"
        ∧ ∃ pre r,
            results_persists (effects_of E request w)
            = [(results_file_of request, r)]
            ∧ effects_of E request w
              = pre ++ [EvPutResults (results_file_of request) r;
                        EvPutStatus (status_file_of request) s2])
       ∨ (status s2 = "failed"
          ∧ results_persists (effects_of E request w) = [])).
Proof.
  destruct (execute_study_effects E request w) as (Hrun & _ & Hfiles).
  apply study_run_persists in Hrun as (s2 & Hs & [pre Hlast] & Hres).
  exists (running_status E request w), s2.
  split; [exact Hs|]. split; [reflexivity|].
  split; [destruct Hres as [[-> _]|[[e ->] _]]; [by left|by right]|].
  split; [rewrite Hfiles, Hlast; apply status_after_put|].
  split; [apply status_after_put|].
  destruct Hres as [[-> Hres]|[[e ->] Hres]]; [left|right]; done.
Qed.

(** ** What a reader of the status can see *)

Lemma engine_states_replay evs st :
  persists_satisfy (fun _ _ s => engine_state (status s)) evs st ->
  (∀ f s, status_files st !! f = Some s -> engine_state (status s)) ->
  ∀ f s, status_files (replay evs st) !! f = Some s -> engine_state (status s).
Proof.
  revert st. induction evs as [|ev evs IH]; intros st; [done|].
  cbn. intros [Hev Hrest] Hst. apply (IH _ Hrest).
  intros f s. destruct ev; cbn; try apply Hst.
  rewrite lookup_insert. case_decide; [|apply Hst].
  by intros [= <-].
Qed.

Lemma observable_engine_states E st :
  observable E st ->
  ∀ f s, status_files st !! f = Some s -> engine_state (status s).
Proof.
  induction 1 as [|request w pre post _ IH Hevs].
  - intros f s. cbn. by rewrite lookup_empty.
  - apply engine_states_replay; [|exact IH].
    pose proof (execute_study_persists E request w) as H.
    rewrite Hevs in H. apply persists_satisfy_app in H as [H _].
    revert H. apply persists_satisfy_impl. tauto.
Qed.

(** C9: the first status record of an execution is in state running, and
    a status read in any store a reader can meet, between or part of the
    way through executions, answers not found or a record whose state is
    running, completed or failed, never pending. *)
Theorem pending_never_observable E :
  (∀ request w, ∃ s rest,
      status_persists (effects_of E request w)
      = (status_file_of request, s) :: rest
      ∧ status s = "running")
  ∧ ∀ st, observable E st ->
      ∀ w study execution, files w = st ->
        match (get_execution_status study execution w).1 with
        | Returned s =>
            engine_state (Backend.status s) ∧ Backend.status s ≠ "pending"
        | Raised e => e = HTTPException 404 "Execution not found"
        end.
Proof.
  split.
  - intros request w.
    destruct (execute_study_effects E request w) as (Hrun & _ & _).
    apply study_run_persists in Hrun as (s2 & Hs & _).
    by eexists _, _.
  - intros st Hobs w study execution <-.
    unfold get_execution_status.
    destruct (status_files (files w) !! _) as [s|] eqn:Hs; cbn; [|done].
    apply (observable_engine_states E _ Hobs) in Hs.
    split; [exact Hs|]. intros Hp. rewrite Hp in Hs.
    by destruct Hs as [?|[?|?]].
Qed.

(** Part of the way through the execution of study [s1] a reader finds a
    record in state running. *)
Lemma pending_never_observable_witness :
  observable Examples.prints_42 (files Examples.midway)
  ∧ match (get_execution_status "s1" "e1" Examples.midway).1 with
    | Returned s =>
        engine_state (Backend.status s) ∧ Backend.status s ≠ "pending"
    | Raised e => e = HTTPException 404 "Execution not found"
    end.
Proof.
  assert (observable Examples.prints_42
            (files Examples.midway)) as Hobs.
  { unfold Examples.midway. cbn [files].
    eapply observable_during; [apply observable_empty|].
    symmetry. apply take_drop. }
  split; [exact Hobs|].
  exact (proj2 (pending_never_observable Examples.prints_42)
           (files Examples.midway) Hobs Examples.midway "s1" "e1" eq_refl).
Defined.

(** ** Script resolution *)

Lemma filter_first_matching suffix names name :
  first_matching suffix names name ->
  ∃ rest, filter (fun n => endswith n suffix = true) names = name :: rest.
Proof.
  intros (before & after & -> & Hname & Hbefore).
  exists (filter (fun n => endswith n suffix = true) after).
  induction Hbefore as [|n before Hn _ IH]; cbn [app].
  - by rewrite filter_cons_True.
  - rewrite filter_cons_False; [exact IH|]. by rewrite Hn.
Qed.

Lemma filter_none_matching suffix names :
  none_matching suffix names ->
  filter (fun n => endswith n suffix = true) names = [].
Proof.
  induction 1 as [|n names Hn _ IH]; [done|].
  rewrite filter_cons_False; [exact IH|]. by rewrite Hn.
Qed.

Lemma first_matching_exists suffix names n :
  n ∈ names -> endswith n suffix = true ->
  ∃ name, first_matching suffix names name.
Proof.
  intros Hin Hn.
  induction names as [|m names IH]; [by apply elem_of_nil in Hin|].
  destruct (endswith m suffix) eqn:Hm.
  - exists m, [], names. by repeat split.
  - apply elem_of_cons in Hin as [->|Hin]; [congruence|].
    destruct (IH Hin) as (name & before & after & -> & Hname & Hbefore).
    exists name, (m :: before), after. repeat split; [done|].
    by constructor.
Qed.

Lemma first_matching_elem suffix names name :
  first_matching suffix names name ->
  name ∈ names ∧ endswith name suffix = true.
Proof.
  intros (before & after & -> & Hname & _). split; [|done].
  apply elem_of_app. right. apply elem_of_cons. by left.
Qed.

Section Resolution.
Context (E : environment).

Lemma glob_first_matching request names suffix name :
  listdir E (study_dir_of request) = Some names ->
  first_matching suffix names name ->
  ∃ rest,
    glob E (study_dir_of request) suffix
    = path_join (study_dir_of request) name :: rest.
Proof.
  intros Hdir Hfirst. unfold glob. rewrite Hdir.
  apply filter_first_matching in Hfirst as [rest ->]. by eexists.
Qed.

Lemma glob_none_matching request names suffix :
  listdir E (study_dir_of request) = Some names ->
  none_matching suffix names ->
  glob E (study_dir_of request) suffix = [].
Proof.
  intros Hdir Hnone. unfold glob. rewrite Hdir.
  by rewrite filter_none_matching.
Qed.

Lemma runnable_run_launches request o evs :
  runnable_run E request o evs ->
  launches evs
  = [match glob E (study_dir_of request) ".R" with
     | script :: _ => LaunchProcess ["Rscript"; script]
     | [] =>
         match glob E (study_dir_of request) ".py" with
         | script :: _ => LaunchProcess ["python3"; script]
         | [] => LaunchDefault
         end
     end].
Proof.
  destruct 1 as [script rest o evs HR Hrun|script rest o evs HR HP Hrun
                |o evs HR HP (Hl & _ & _)].
  - rewrite HR. by apply script_run_events in Hrun as [_ ->].
  - rewrite HR, HP. by apply script_run_events in Hrun as [_ ->].
  - by rewrite HR, HP.
Qed.

Lemma launches_app evs1 evs2 :
  launches (evs1 ++ evs2) = launches evs1 ++ launches evs2.
Proof. apply omap_app. Qed.

Lemma study_run_launches request w o evs :
  listdir E (study_dir_of request) ≠ None ->
  study_run E request w o evs ->
  launches evs
  = [match glob E (study_dir_of request) ".R" with
     | script :: _ => LaunchProcess ["Rscript"; script]
     | [] =>
         match glob E (study_dir_of request) ".py" with
         | script :: _ => LaunchProcess ["python3"; script]
         | [] => LaunchDefault
         end
     end].
Proof.
  intros Hdir [Hdir'|results evs' _ Hrun|e evs' _ Hrun]; [done| |];
    rewrite !launches_app, (runnable_run_launches _ _ _ Hrun);
    reflexivity.
Qed.
End Resolution.

(** C4, as amended: for a study whose directory exists, exactly one
    runnable is started.  It is the first [*.R] entry in the order of the
    directory listing, run with [Rscript], when there is one; otherwise the
    first [*.py] entry in that order, run with [python3], when there is
    one; otherwise the default analysis.  A study holding both kinds has
    one of its R files run. *)
Theorem script_resolution_priority E request w names :
  listdir E (study_dir_of request) = Some names ->
  (∀ name, first_matching ".R" names name ->
     launches (effects_of E request w)
     = [LaunchProcess ["Rscript"; path_join (study_dir_of request) name]])
  ∧ (none_matching ".R" names ->
     ∀ name, first_matching ".py" names name ->
       launches (effects_of E request w)
       = [LaunchProcess ["python3"; path_join (study_dir_of request) name]])
  ∧ (none_matching ".R" names -> none_matching ".py" names ->
     launches (effects_of E request w) = [LaunchDefault])
  ∧ (∀ r p, r ∈ names -> endswith r ".R" = true ->
            p ∈ names -> endswith p ".py" = true ->
     ∃ name,
       name ∈ names ∧ endswith name ".R" = true
       ∧ launches (effects_of E request w)
         = [LaunchProcess ["Rscript"; path_join (study_dir_of request) name]]).
Proof.
  intros Hdir.
  assert (listdir E (study_dir_of request) ≠ None) as Hsome by congruence.
  destruct (execute_study_effects E request w) as (Hrun & _ & _).
  pose proof (study_run_launches E request w _ _ Hsome Hrun) as Hl.
  assert (∀ name, first_matching ".R" names name ->
            launches (effects_of E request w)
            = [LaunchProcess ["Rscript"; path_join (study_dir_of request) name]])
    as HR.
  { intros name Hfirst.
    destruct (glob_first_matching E request names ".R" name Hdir Hfirst)
      as [rest Hglob].
    by rewrite Hl, Hglob. }
  split; [exact HR|]. split; [|split].
  - intros Hnone name Hfirst.
    destruct (glob_first_matching E request names ".py" name Hdir Hfirst)
      as [rest Hglob].
    by rewrite Hl, (glob_none_matching E request names ".R" Hdir Hnone), Hglob.
  - intros HnoneR HnoneP.
    by rewrite Hl, (glob_none_matching E request names ".R" Hdir HnoneR),
      (glob_none_matching E request names ".py" Hdir HnoneP).
  - intros r p Hr HrR _ _.
    destruct (first_matching_exists ".R" names r Hr HrR) as [name Hfirst].
    exists name. destruct (first_matching_elem _ _ _ Hfirst) as [? ?].
    auto.
Qed.

(** Study [s1] lists [b.R] first among its R files; [b.R] is run. *)
Lemma script_resolution_priority_witness :
  listdir Examples.prints_42
    (study_dir_of (Examples.request "s1")) = Some ["b.R"; "a.py"; "a.R"]
  ∧ first_matching ".R" ["b.R"; "a.py"; "a.R"] "b.R"
  ∧ launches (effects_of Examples.prints_42
                (Examples.request "s1") Examples.world0)
    = [LaunchProcess
         ["Rscript"; path_join (study_dir_of (Examples.request "s1")) "b.R"]].
Proof.
  assert (first_matching ".R" ["b.R"; "a.py"; "a.R"] "b.R") as Hfirst.
  { exists [], ["a.py"; "a.R"]. repeat split. constructor. }
  split; [reflexivity|]. split; [exact Hfirst|].
  exact (proj1 (script_resolution_priority
                  Examples.prints_42
                  (Examples.request "s1") Examples.world0 _ eq_refl)
           _ Hfirst).
Defined.

(** C4, as stated, fails: study [s1] lists [b.R] before [a.R]; the first R
    file in lexicographic order is [a.R], the one run is [b.R]. *)
Lemma first_listed_not_lexicographic_first :
  listdir Examples.prints_42
    (study_dir_of (Examples.request "s1")) = Some ["b.R"; "a.py"; "a.R"]
  ∧ SpecResolver.resolve ["b.R"; "a.py"; "a.R"] = SpecResolver.R "a.R"
  ∧ launches (effects_of Examples.prints_42
                (Examples.request "s1") Examples.world0)
    = [LaunchProcess ["Rscript"; "/studies/s1/b.R"]]
  ∧ "/studies/s1/b.R" ≠ path_join (study_dir_of (Examples.request "s1")) "a.R".
Proof.
  split; [reflexivity|]. split; [vm_compute; reflexivity|].
  split; [vm_compute; reflexivity|]. vm_compute. discriminate.
Qed.

(** ** Executions that run a script *)

Section ScriptExecutions.
Context (E : environment).

(** An execution that runs a script is the script run between the running
    record and the terminal writes. *)
Lemma chosen_script_effects request w interpreter label script :
  chosen_script E request interpreter label script ->
  ∃ o evs,
    script_run E interpreter label script (exec_dir_of request)
      (log_file_of request) (Request.parameters request)
      (Request.timeout request) o evs
    ∧ (execute_study E request w).1
      = match o with
        | Returned _ => Returned (completed_status E request w)
        | Raised e =>
            Raised (HTTPException 500 ("Execution failed: " +:+ str E e))
        end
    ∧ effects_of E request w
      = [EvMkdir (exec_dir_of request);
         EvPutStatus (status_file_of request) (running_status E request w)]
        ++ evs
        ++ match o with
           | Returned results =>
               [EvPutResults (results_file_of request) results;
                EvPutStatus (status_file_of request)
                  (completed_status E request w)]
           | Raised e =>
               [EvPutStatus (status_file_of request)
                  (failed_status E request w e)]
           end.
Proof.
  intros Hc. pose proof (chosen_script_listed E _ _ _ _ Hc) as Hdir.
  destruct (execute_study_effects E request w) as (Hrun & _ & _).
  destruct Hrun as [Hdir'|results evs _ Hrun|e evs _ Hrun]; [done| |].
  - exists (Returned results), evs.
    split; [by eapply chosen_script_run|done].
  - exists (Raised e), evs.
    split; [by eapply chosen_script_run|done].
Qed.

Lemma script_run_timed_out_inv interpreter label script exec_dir log_file
    parameters timeout stdout stderr o evs :
  run E [interpreter; script] exec_dir timeout = TimedOut stdout stderr ->
  script_run E interpreter label script exec_dir log_file parameters timeout
    o evs ->
  o = Raised (Exception (label +:+ " script execution timed out after "
                         +:+ pretty timeout +:+ " seconds"))
  ∧ evs = script_header E label script log_file parameters
          ++ [EvSpawn [interpreter; script] exec_dir timeout].
Proof. intros Hrun. destruct 1; try congruence. done. Qed.

Lemma script_run_nonzero_inv interpreter label script exec_dir log_file
    parameters timeout returncode stdout stderr o evs :
  run E [interpreter; script] exec_dir timeout
    = Completed returncode stdout stderr ->
  returncode ≠ 0 ->
  script_run E interpreter label script exec_dir log_file parameters timeout
    o evs ->
  o = Raised (Exception (label +:+ " script failed with code "
                         +:+ pretty returncode +:+ ": " +:+ stderr))
  ∧ evs = script_header E label script log_file parameters
          ++ [EvSpawn [interpreter; script] exec_dir timeout]
          ++ script_output log_file stdout stderr.
Proof.
  intros Hrun Hrc. destruct 1 as [| |rc out err Hrun'| |];
    try congruence.
  rewrite Hrun in Hrun'. by simplify_eq.
Qed.

Lemma script_run_zero_inv interpreter label script exec_dir log_file
    parameters timeout stdout stderr o evs :
  run E [interpreter; script] exec_dir timeout = Completed 0 stdout stderr ->
  script_run E interpreter label script exec_dir log_file parameters timeout
    o evs ->
  o = Returned match json_loads E stdout with
               | inl v => v
               | inr _ => text_result stdout
               end
  ∧ evs = script_header E label script log_file parameters
          ++ [EvSpawn [interpreter; script] exec_dir timeout]
          ++ script_output log_file stdout stderr.
Proof.
  intros Hrun.
  destruct 1 as [| |rc out err Hrun' Hrc|out err v Hrun' Hv
                |out err msg Hrun' Hmsg]; try congruence.
  - rewrite Hrun in Hrun'. simplify_eq. by rewrite Hv.
  - rewrite Hrun in Hrun'. simplify_eq. by rewrite Hmsg.
Qed.

Lemma results_after_put pre f r g s st :
  results_files (replay (pre ++ [EvPutResults f r; EvPutStatus g s]) st) !! f
  = Some r.
Proof. rewrite replay_app. cbn. apply lookup_insert_eq. Qed.

Lemma results_untouched evs st :
  results_persists evs = [] ->
  results_files (replay evs st) = results_files st.
Proof.
  revert st. induction evs as [|ev evs IH]; intros st; [done|].
  change (replay (ev :: evs) st) with (replay evs (apply_event ev st)).
  destruct ev; cbn; intros H; try done; by rewrite IH.
Qed.

(** The log after the header of a script run and any effects that leave
    the log alone. *)
Lemma log_after_header pre label script log_file parameters post st :
  (∀ st', log_files (replay post st') = log_files st') ->
  log_files
    (replay (pre ++ script_header E label script log_file parameters ++ post)
       st) !! log_file
  = Some (("Executing " +:+ label +:+ " script: " +:+ script +:+ LF)
          +:+ ("Parameters: " +:+ json_dumps E parameters +:+ LF +:+ LF)).
Proof.
  intros Hpost. rewrite !replay_app, Hpost. cbn.
  by rewrite !lookup_insert_eq.
Qed.
End ScriptExecutions.

(** C5, as amended: when the script exceeds the timeout, the execution
    ends failed with an error message that names the timeout, and the log
    holds the two header lines and nothing else: the output captured
    before the child was stopped is not written. *)
Theorem timeout_fails_with_header_only_log E request w interpreter label
    script stdout stderr :
  chosen_script E request interpreter label script ->
  run E [interpreter; script] (exec_dir_of request) (Request.timeout request)
    = TimedOut stdout stderr ->
  (execute_study E request w).1
  = Raised (HTTPException 500
              ("Execution failed: " +:+ label
               +:+ " script execution timed out after "
               +:+ pretty (Request.timeout request) +:+ " seconds"))
  ∧ (∃ s,
       status_files (files (execute_study E request w).2)
         !! status_file_of request = Some s
       ∧ status s = "failed"
       ∧ error_message s
         = Some (label +:+ " script execution timed out after "
                 +:+ pretty (Request.timeout request) +:+ " seconds"))
  ∧ log_files (files (execute_study E request w).2) !! log_file_of request
    = Some (("Executing " +:+ label +:+ " script: " +:+ script +:+ LF)
            +:+ ("Parameters: " +:+ json_dumps E (Request.parameters request)
                 +:+ LF +:+ LF)).
Proof.
  intros Hc Hrun.
  destruct (chosen_script_effects E request w _ _ _ Hc)
    as (o & evs & Hscript & Hout & Hevs).
  destruct (script_run_timed_out_inv E _ _ _ _ _ _ _ _ _ _ _ Hrun Hscript)
    as [-> ->].
  destruct (execute_study_effects E request w) as (_ & _ & Hfiles).
  rewrite Hfiles, Hevs. split; [exact Hout|]. split.
  - eexists. rewrite app_assoc. split; [apply status_after_put|]. done.
  - rewrite <- app_assoc. by apply log_after_header.
Qed.

(** The R script of study [s1] is stopped at the timeout. *)
Lemma timeout_fails_with_header_only_log_witness :
  chosen_script Examples.times_out
    (Examples.request "s1") "Rscript" "R" "/studies/s1/b.R"
  ∧ (execute_study Examples.times_out
       (Examples.request "s1") Examples.world0).1
    = Raised (HTTPException 500
                ("Execution failed: " +:+ "R"
                 +:+ " script execution timed out after "
                 +:+ pretty (Request.timeout (Examples.request "s1"))
                 +:+ " seconds")).
Proof.
  assert (chosen_script Examples.times_out
            (Examples.request "s1") "Rscript" "R" "/studies/s1/b.R") as Hc.
  { by eapply chosen_r. }
  split; [exact Hc|].
  exact (proj1 (timeout_fails_with_header_only_log
                  Examples.times_out
                  (Examples.request "s1") Examples.world0 _ _ _
                  "partial-out" "partial-err" Hc eq_refl)).
Defined.

(** C5, as stated, fails: the R script of study [s1] times out after
    writing [partial-out] and [partial-err]; the execution fails, and
    neither text occurs in its log. *)
Lemma partial_output_not_logged :
  run Examples.times_out
    ["Rscript"; "/studies/s1/b.R"] (exec_dir_of (Examples.request "s1"))
    (Request.timeout (Examples.request "s1"))
  = TimedOut "partial-out" "partial-err"
  ∧ ∃ log,
      log_files
        (files (execute_study
                  Examples.times_out
                  (Examples.request "s1") Examples.world0).2)
        !! log_file_of (Examples.request "s1") = Some log
      ∧ occurs_in "partial-out" log = false
      ∧ occurs_in "partial-err" log = false.
Proof.
  split; [reflexivity|].
  eexists. split; [vm_compute; reflexivity|].
  split; vm_compute; reflexivity.
Qed.

(** C6: when the script exits with code 0, the execution returns a
    completed status and the result written is the decoded stdout when it
    decodes as JSON, and otherwise the record with [output] the stdout and
    [type] the word text; decoding failures raise nothing. *)
Theorem stdout_interpreted_or_wrapped E request w interpreter label script
    stdout stderr :
  chosen_script E request interpreter label script ->
  run E [interpreter; script] (exec_dir_of request) (Request.timeout request)
    = Completed 0 stdout stderr ->
  (∃ s,
     (execute_study E request w).1 = Returned s
     ∧ status s = "completed"
     ∧ results_available s = true
     ∧ status_files (files (execute_study E request w).2)
         !! status_file_of request = Some s)
  ∧ results_files (files (execute_study E request w).2)
      !! results_file_of request
    = Some match json_loads E stdout with
           | inl v => v
           | inr _ =>
               JObj [("output", JStr stdout); ("type", JStr "text")]
           end.
Proof.
  intros Hc Hrun.
  destruct (chosen_script_effects E request w _ _ _ Hc)
    as (o & evs & Hscript & Hout & Hevs).
  destruct (script_run_zero_inv E _ _ _ _ _ _ _ _ _ _ _ Hrun Hscript)
    as [-> ->].
  destruct (execute_study_effects E request w) as (_ & _ & Hfiles).
  rewrite Hfiles, Hevs, !app_assoc. split.
  - exists (completed_status E request w).
    split; [exact Hout|]. split; [done|]. split; [done|].
    rewrite <- !app_assoc.
    change [EvPutResults ?f ?r; ?e] with ([EvPutResults f r] ++ [e]).
    rewrite !app_assoc. apply status_after_put.
  - apply results_after_put.
Qed.

(** The Python script of study [s3] prints text that is not JSON. *)
Lemma stdout_interpreted_or_wrapped_witness :
  chosen_script Examples.prints_text
    (Examples.request "s3") "python3" "Python" "/studies/s3/run.py"
  ∧ results_files
      (files (execute_study Examples.prints_text
                (Examples.request "s3") Examples.world0).2)
      !! results_file_of (Examples.request "s3")
    = Some match json_loads Examples.prints_text
                   "not json" with
           | inl v => v
           | inr _ =>
               JObj [("output", JStr "not json"); ("type", JStr "text")]
           end.
Proof.
  assert (chosen_script Examples.prints_text
            (Examples.request "s3") "python3" "Python" "/studies/s3/run.py")
    as Hc.
  { by eapply chosen_python. }
  split; [exact Hc|].
  exact (proj2 (stdout_interpreted_or_wrapped
                  Examples.prints_text
                  (Examples.request "s3") Examples.world0 _ _ _
                  "not json" EmptyString Hc eq_refl)).
Defined.

(** C7: when the script exits with a code other than 0, the process runner
    returns the outcome without raising; the execution ends failed, its
    error message holds the exit code and the stderr text, and no results
    are written. *)
Theorem nonzero_exit_fails_without_results E request w interpreter label
    script returncode stdout stderr :
  chosen_script E request interpreter label script ->
  run E [interpreter; script] (exec_dir_of request) (Request.timeout request)
    = Completed returncode stdout stderr ->
  returncode ≠ 0 ->
  (∀ w0,
     (subprocess_run E [interpreter; script] (exec_dir_of request)
        (Request.timeout request) w0).1
     = Returned (returncode, stdout, stderr))
  ∧ (execute_study E request w).1
    = Raised (HTTPException 500
                ("Execution failed: " +:+ label +:+ " script failed with code "
                 +:+ pretty returncode +:+ ": " +:+ stderr))
  ∧ (∃ s,
       status_files (files (execute_study E request w).2)
         !! status_file_of request = Some s
       ∧ status s = "failed"
       ∧ error_message s
         = Some (label +:+ " script failed with code "
                 +:+ pretty returncode +:+ ": " +:+ stderr))
  ∧ results_persists (effects_of E request w) = []
  ∧ results_files (files (execute_study E request w).2)
    = results_files (files w).
Proof.
  intros Hc Hrun Hrc.
  destruct (chosen_script_effects E request w _ _ _ Hc)
    as (o & evs & Hscript & Hout & Hevs).
  destruct (script_run_nonzero_inv E _ _ _ _ _ _ _ _ _ _ _ _ Hrun Hrc Hscript)
    as [-> ->].
  destruct (execute_study_effects E request w) as (_ & _ & Hfiles).
  rewrite Hfiles, Hevs.
  split; [intros w0; unfold subprocess_run, bind, emit; by rewrite Hrun|].
  split; [exact Hout|]. split.
  - eexists. rewrite app_assoc. split; [apply status_after_put|]. done.
  - split; [done|]. by apply results_untouched.
Qed.

(** The R script of study [s1] exits with code 1. *)
Lemma nonzero_exit_fails_without_results_witness :
  chosen_script Examples.exits_1
    (Examples.request "s1") "Rscript" "R" "/studies/s1/b.R"
  ∧ (1 ≠ 0)%Z
  ∧ (execute_study Examples.exits_1
       (Examples.request "s1") Examples.world0).1
    = Raised (HTTPException 500
                ("Execution failed: " +:+ "R" +:+ " script failed with code "
                 +:+ pretty 1%Z +:+ ": " +:+ "boom")).
Proof.
  assert (chosen_script Examples.exits_1
            (Examples.request "s1") "Rscript" "R" "/studies/s1/b.R") as Hc.
  { by eapply chosen_r. }
  assert (1 ≠ 0)%Z as Hrc by lia.
  split; [exact Hc|]. split; [exact Hrc|].
  exact (proj1 (proj2 (nonzero_exit_fails_without_results
                         Examples.exits_1
                         (Examples.request "s1") Examples.world0 _ _ _
                         1 EmptyString "boom" Hc eq_refl Hrc))).
Defined.

(** C10: when the script exits with code 0 and its stdout decodes to a JSON
    scalar, the result written is that scalar: not an object, not an array,
    and not the text record. *)
Theorem scalar_result_verbatim E request w interpreter label script stdout
    stderr v :
  chosen_script E request interpreter label script ->
  run E [interpreter; script] (exec_dir_of request) (Request.timeout request)
    = Completed 0 stdout stderr ->
  json_loads E stdout = inl v ->
  scalar v ->
  results_files (files (execute_study E request w).2)
    !! results_file_of request = Some v
  ∧ results_persists (effects_of E request w)
    = [(results_file_of request, v)]
  ∧ (∀ fields, v ≠ JObj fields)
  ∧ (∀ items, v ≠ JArr items)
  ∧ v ≠ JObj [("output", JStr stdout); ("type", JStr "text")]
  ∧ (execute_study E request w).1 = Returned (completed_status E request w).
Proof.
  intros Hc Hrun Hv Hscalar.
  destruct (chosen_script_effects E request w _ _ _ Hc)
    as (o & evs & Hscript & Hout & Hevs).
  destruct (script_run_zero_inv E _ _ _ _ _ _ _ _ _ _ _ Hrun Hscript)
    as [-> ->].
  rewrite Hv in *.
  destruct (execute_study_effects E request w) as (_ & _ & Hfiles).
  rewrite Hfiles, Hevs.
  split; [rewrite !app_assoc; apply results_after_put|].
  split; [done|].
  split; [by destruct v|]. split; [by destruct v|].
  split; [by destruct v|exact Hout].
Qed.

(** The R script of study [s1] prints the number 42. *)
Lemma scalar_result_verbatim_witness :
  chosen_script Examples.prints_42
    (Examples.request "s1") "Rscript" "R" "/studies/s1/b.R"
  ∧ json_loads Examples.prints_42 "42" = inl (JInt 42)
  ∧ scalar (JInt 42)
  ∧ results_files
      (files (execute_study Examples.prints_42
                (Examples.request "s1") Examples.world0).2)
      !! results_file_of (Examples.request "s1") = Some (JInt 42).
Proof.
  assert (chosen_script Examples.prints_42
            (Examples.request "s1") "Rscript" "R" "/studies/s1/b.R") as Hc.
  { by eapply chosen_r. }
  split; [exact Hc|]. split; [reflexivity|]. split; [exact I|].
  exact (proj1 (scalar_result_verbatim
                  Examples.prints_42
                  (Examples.request "s1") Examples.world0 _ _ _
                  "42" EmptyString (JInt 42) Hc eq_refl eq_refl I)).
Defined.

(** * Beyond the claims *)

(** ** Isolation of executions *)

Lemma own_events_files request evs st :
  Forall (own_event request) evs ->
  (∀ f, f ≠ status_file_of request ->
        status_files (replay evs st) !! f = status_files st !! f)
  ∧ (∀ f, f ≠ results_file_of request ->
          results_files (replay evs st) !! f = results_files st !! f)
  ∧ (∀ f, f ≠ log_file_of request ->
          log_files (replay evs st) !! f = log_files st !! f).
Proof.
  intros H. revert st.
  induction H as [|ev evs Hev _ IH]; intros st; [done|].
  change (replay (ev :: evs) st) with (replay evs (apply_event ev st)).
  destruct (IH (apply_event ev st)) as (IHs & IHr & IHl).
  repeat split; intros f Hf;
    [rewrite IHs by done|rewrite IHr by done|rewrite IHl by done];
    destruct ev; cbn in *; try done; subst;
    by rewrite lookup_insert_ne.
Qed.

Lemma runner_event_own request ev :
  runner_event (log_file_of request) ev -> own_event request ev.
Proof. by destruct ev. Qed.

Lemma study_run_own_events E request w o evs :
  study_run E request w o evs -> Forall (own_event request) evs.
Proof.
  destruct 1 as [Hdir|results evs Hdir Hrun|e evs Hdir Hrun].
  - by repeat constructor.
  - apply runnable_run_events in Hrun as [Hev _].
    rewrite !Forall_app. repeat split; [by repeat constructor| |by repeat constructor].
    eapply Forall_impl; [exact Hev|]. apply runner_event_own.
  - apply runnable_run_events in Hrun as [Hev _].
    rewrite !Forall_app. repeat split; [by repeat constructor| |by repeat constructor].
    eapply Forall_impl; [exact Hev|]. apply runner_event_own.
Qed.

(** Paths as texts: joining a directory and a plain name can be undone. *)
Lemma list_ascii_of_string_app (a b : string) :
  String.list_ascii_of_string (a +:+ b)
  = String.list_ascii_of_string a ++ String.list_ascii_of_string b.
Proof.
  induction a as [|c a IH]; [reflexivity|].
  change (String.list_ascii_of_string (String c (a +:+ b))
          = c :: (String.list_ascii_of_string a
                  ++ String.list_ascii_of_string b)).
  cbn [String.list_ascii_of_string]. by rewrite IH.
Qed.

Lemma list_ascii_of_string_inj (a b : string) :
  String.list_ascii_of_string a = String.list_ascii_of_string b -> a = b.
Proof.
  intros H. rewrite <- (String.string_of_list_ascii_of_string a),
    <- (String.string_of_list_ascii_of_string b). by rewrite H.
Qed.

Lemma plain_name_no_separator (name : string) :
  plain_name name = true ->
  Ascii.ascii_of_nat 47 ∉ String.list_ascii_of_string name.
Proof.
  unfold plain_name. rewrite !andb_true_iff.
  intros [[_ Hall] _]. rewrite forallb_forall in Hall.
  intros Hin. apply list_elem_of_In, Hall in Hin.
  rewrite Ascii.eqb_refl in Hin. discriminate Hin.
Qed.

Lemma path_join_inj (dir dir' name name' : string) :
  Ascii.ascii_of_nat 47 ∉ String.list_ascii_of_string name ->
  Ascii.ascii_of_nat 47 ∉ String.list_ascii_of_string name' ->
  path_join dir name = path_join dir' name' ->
  dir = dir' ∧ name = name'.
Proof.
  intros Hn Hn' Heq. apply (f_equal String.list_ascii_of_string) in Heq.
  unfold path_join in Heq. rewrite !list_ascii_of_string_app in Heq.
  apply not_elem_of_app_cons_inv_r in Heq as (Hd & _ & Hname); [|done..].
  split; by apply list_ascii_of_string_inj.
Qed.

(** Executions with plain ids have the same file of a kind only when they
    are the same execution. *)
Lemma artefact_path_inj (study execution study' execution' file : string) :
  plain_name study = true -> plain_name execution = true ->
  plain_name study' = true -> plain_name execution' = true ->
  plain_name file = true ->
  path_join (path_join (path_join RESULTS_DIR study) execution) file
  = path_join (path_join (path_join RESULTS_DIR study') execution') file ->
  (study, execution) = (study', execution').
Proof.
  intros Hs He Hs' He' Hf Heq.
  apply path_join_inj in Heq as [Heq _];
    [|by apply plain_name_no_separator..].
  apply path_join_inj in Heq as [Heq ->];
    [|by apply plain_name_no_separator..].
  apply path_join_inj in Heq as [_ ->];
    [|by apply plain_name_no_separator..].
  reflexivity.
Qed.

(** X1: the engine writes no artefact of another execution.  For a request
    whose ids are plain names and any other execution with plain ids, the
    [status.json], [results.json] and [execution.log] of that execution
    hold after [execute_study] what they held before.  (What a child
    process does to the file system is not part of the model.) *)
Theorem execute_study_isolation E request w study execution :
  plain_name (Request.study_id request) = true ->
  plain_name (Request.execution_id request) = true ->
  plain_name study = true ->
  plain_name execution = true ->
  (study, execution)
  ≠ (Request.study_id request, Request.execution_id request) ->
  status_files (files (execute_study E request w).2)
    !! path_join (path_join (path_join RESULTS_DIR study) execution)
         "status.json"
  = status_files (files w)
      !! path_join (path_join (path_join RESULTS_DIR study) execution)
           "status.json"
  ∧ results_files (files (execute_study E request w).2)
      !! path_join (path_join (path_join RESULTS_DIR study) execution)
           "results.json"
    = results_files (files w)
        !! path_join (path_join (path_join RESULTS_DIR study) execution)
             "results.json"
  ∧ log_files (files (execute_study E request w).2)
      !! path_join (path_join (path_join RESULTS_DIR study) execution)
           "execution.log"
    = log_files (files w)
        !! path_join (path_join (path_join RESULTS_DIR study) execution)
             "execution.log".
Proof.
  intros Hs He Hs' He' Hother.
  destruct (execute_study_effects E request w) as (Hrun & _ & ->).
  apply study_run_own_events in Hrun.
  destruct (own_events_files request _ (files w) Hrun) as (Hst & Hre & Hlo).
  split; [|split]; [apply Hst|apply Hre|apply Hlo];
    intros Heq; apply Hother;
    by apply artefact_path_inj in Heq.
Qed.

(** ** Reading back what an execution wrote *)

Lemma study_run_last_status E request w o evs :
  study_run E request w o evs ->
  ∃ pre s,
    evs = pre ++ [EvPutStatus (status_file_of request) s]
    ∧ study_id s = Request.study_id request
    ∧ execution_id s = Request.execution_id request
    ∧ created_at s = utcnow_at E (clock_reads w)
    ∧ completed_at s = Some (utcnow_at E (S (clock_reads w)))
    ∧ match o with
      | Returned s' =>
          s' = s ∧ status s = "completed" ∧ error_message s = None
          ∧ results_available s = true
      | Raised e =>
          ∃ e',
            e = HTTPException 500 ("Execution failed: " +:+ str E e')
            ∧ status s = "failed" ∧ error_message s = Some (str E e')
            ∧ results_available s = false
      end.
Proof.
  destruct 1 as [Hdir|results evs Hdir Hrun|e evs Hdir Hrun].
  - exists [EvMkdir (exec_dir_of request);
            EvPutStatus (status_file_of request)
              (running_status E request w)],
      (failed_status E request w study_not_found_error).
    repeat split; eauto.
  - exists ([EvMkdir (exec_dir_of request);
             EvPutStatus (status_file_of request)
               (running_status E request w)]
            ++ evs ++ [EvPutResults (results_file_of request) results]),
      (completed_status E request w).
    split; [by rewrite <- !app_assoc|]. repeat split; eauto.
  - exists ([EvMkdir (exec_dir_of request);
             EvPutStatus (status_file_of request)
               (running_status E request w)] ++ evs),
      (failed_status E request w e).
    split; [by rewrite <- !app_assoc|]. repeat split; eauto.
Qed.

(** X2: the status read of the backend, made after an execution for the
    ids of its request, answers the record the execution ended with: the
    ids of the request, the first clock reading as creation time, the
    second as completion time; after a return the state and fields of the
    status returned, after an error state failed and as error message the
    detail of the error without its [Execution failed: ] prefix. *)
Theorem status_read_back E request w :
  ∃ s,
    (get_execution_status (Request.study_id request)
       (Request.execution_id request) (execute_study E request w).2).1
    = Returned s
    ∧ Backend.study_id s = Request.study_id request
    ∧ Backend.execution_id s = Request.execution_id request
    ∧ Backend.created_at s = utcnow_at E (clock_reads w)
    ∧ Backend.completed_at s = Some (utcnow_at E (S (clock_reads w)))
    ∧ match (execute_study E request w).1 with
      | Returned s' =>
          Backend.status s = status s' ∧ status s' = "completed"
          ∧ Backend.error_message s = None
          ∧ created_at s' = Backend.created_at s
          ∧ completed_at s' = Backend.completed_at s
      | Raised e =>
          ∃ msg,
            e = HTTPException 500 ("Execution failed: " +:+ msg)
            ∧ Backend.status s = "failed"
            ∧ Backend.error_message s = Some msg
      end.
Proof.
  destruct (execute_study_effects E request w) as (Hrun & _ & Hfiles).
  apply study_run_last_status in Hrun
    as (pre & s & Hevs & Hsid & Heid & Hc & Hd & Ho).
  unfold get_execution_status.
  change (path_join (path_join (path_join RESULTS_DIR
                                  (Request.study_id request))
                       (Request.execution_id request)) "status.json")
    with (status_file_of request).
  rewrite Hfiles, Hevs, status_after_put. cbn [fst].
  eexists. split; [reflexivity|].
  destruct (execute_study E request w).1 as [s'|e]; cbn.
  - destruct Ho as (-> & ? & ? & ?). by rewrite Hc, Hd.
  - destruct Ho as (e' & -> & ? & ? & ?). repeat split; eauto.
Qed.

(** X3: after an execution that returned, the results read of the backend
    answers the one result the execution wrote; after an execution that
    ended in an error it answers what it answered before: results of an
    earlier run under the same ids stay readable, and absent results stay
    absent. *)
Theorem results_read_back E request w :
  match (execute_study E request w).1 with
  | Returned _ =>
      ∃ r,
        results_persists (effects_of E request w)
        = [(results_file_of request, r)]
        ∧ (get_execution_results (Request.study_id request)
             (Request.execution_id request) (execute_study E request w).2).1
          = Returned r
  | Raised _ =>
      (get_execution_results (Request.study_id request)
         (Request.execution_id request) (execute_study E request w).2).1
      = (get_execution_results (Request.study_id request)
           (Request.execution_id request) w).1
  end.
Proof.
  destruct (execute_study_effects E request w) as (Hrun & _ & Hfiles).
  unfold get_execution_results.
  change (path_join (path_join (path_join RESULTS_DIR
                                  (Request.study_id request))
                       (Request.execution_id request)) "results.json")
    with (results_file_of request).
  rewrite Hfiles.
  destruct Hrun as [Hdir|results evs Hdir Hrun|e evs Hdir Hrun]; cbn [fst].
  - rewrite results_untouched by done.
    by destruct (results_files (files w) !! results_file_of request).
  - apply runnable_run_events in Hrun as [Hev _].
    apply runner_events_persists in Hev as [_ Hev].
    exists results. rewrite !results_persists_app, Hev.
    split; [reflexivity|]. by rewrite !app_assoc, results_after_put.
  - apply runnable_run_events in Hrun as [Hev _].
    apply runner_events_persists in Hev as [_ Hev].
    rewrite results_untouched
      by (by rewrite !results_persists_app, Hev).
    by destruct (results_files (files w) !! results_file_of request).
Qed.

(** ** The log of an execution *)

Lemma string_app_assoc (s1 s2 s3 : string) :
  (s1 +:+ s2) +:+ s3 = s1 +:+ (s2 +:+ s3).
Proof.
  induction s1 as [|c s1 IH]; [done|].
  change (String c ((s1 +:+ s2) +:+ s3) = String c (s1 +:+ (s2 +:+ s3))).
  by rewrite IH.
Qed.

Lemma string_app_nil_r (s : string) : s +:+ EmptyString = s.
Proof.
  induction s as [|c s IH]; [done|].
  change (String c (s +:+ EmptyString) = String c s). by rewrite IH.
Qed.

Lemma log_text_app log_file evs1 evs2 :
  log_text log_file (evs1 ++ evs2)
  = log_text log_file evs1 +:+ log_text log_file evs2.
Proof.
  induction evs1 as [|ev evs1 IH]; [done|].
  cbn [app]. unfold log_text in *. cbn [foldr]. rewrite IH.
  destruct ev; try done. case_bool_decide; [|done].
  by rewrite string_app_assoc.
Qed.

(** Appending effects add their texts to the log they find. *)
Lemma log_after_appends log_file evs st old :
  Forall (appending_event log_file) evs ->
  log_files st !! log_file = Some old ->
  log_files (replay evs st) !! log_file
  = Some (old +:+ log_text log_file evs).
Proof.
  intros H. revert st old.
  induction H as [|ev evs Hev _ IH]; intros st old Hold.
  - by rewrite string_app_nil_r.
  - change (replay (ev :: evs) st) with (replay evs (apply_event ev st)).
    destruct ev; cbn in Hev; try done.
    + cbn in Hev. subst log_file0.
      erewrite IH; [|cbn; rewrite lookup_insert_eq, Hold; reflexivity].
      unfold log_text. cbn [foldr].
      rewrite bool_decide_eq_true_2 by done.
      by rewrite string_app_assoc.
    + by apply IH.
    + by apply IH.
    + by apply IH.
Qed.

Lemma script_run_opens_log E interpreter label script exec_dir log_file
    parameters timeout o evs :
  script_run E interpreter label script exec_dir log_file parameters timeout
    o evs ->
  opens_log_first log_file evs.
Proof.
  destruct 1; (eexists; split; [left; reflexivity|by repeat constructor]).
Qed.

Lemma run_default_opens_log E exec_dir log_file w :
  ∃ o evs,
    run_default_cohort_analysis E exec_dir log_file w = (o, extend w evs)
    ∧ opens_log_first log_file evs.
Proof.
  unfold opens_log_first. run_code.
  destruct (read_sql E Demographics) as [df1|m1]; run_code;
    [destruct (read_sql E VisitStatistics) as [df2|m2]; run_code;
     [destruct (read_sql E IcuStatistics) as [df3|m3]; run_code;
      [destruct (read_sql E TopDiagnoses) as [df4|m4]; run_code;
       [destruct df2 as [|r2 df2]; run_code;
        [|destruct df3 as [|r3 df3]; run_code]|]|]|]|];
    (eexists _, _; split; [reached|]);
    (eexists; split; [right; reflexivity|by repeat constructor]).
Qed.

Lemma run_selected_opens_log E request w :
  ∃ o evs,
    run_selected E request w = (o, extend w evs)
    ∧ opens_log_first (log_file_of request) evs.
Proof.
  unfold run_selected.
  destruct (glob E (study_dir_of request) ".R") as [|r rs].
  - destruct (glob E (study_dir_of request) ".py") as [|p ps].
    + apply run_default_opens_log.
    + destruct (execute_script_run E "python3" "Python" p
                  (exec_dir_of request) (log_file_of request)
                  (Request.parameters request) (Request.timeout request) w)
        as (o & evs & Heq & Hrun).
      exists o, evs. split; [exact Heq|]. by eapply script_run_opens_log.
  - destruct (execute_script_run E "Rscript" "R" r
                (exec_dir_of request) (log_file_of request)
                (Request.parameters request) (Request.timeout request) w)
      as (o & evs & Heq & Hrun).
    exists o, evs. split; [exact Heq|]. by eapply script_run_opens_log.
Qed.

Lemma closing_effects_log E request w o st :
  log_files (replay (closing_effects E request w o) st) = log_files st
  ∧ log_text (log_file_of request) (closing_effects E request w o)
    = EmptyString.
Proof. by destruct o. Qed.

(** X4: for a study whose directory exists, the log read of the backend,
    made after the execution, answers exactly the texts this execution
    wrote to its log, in order; what the log held before is gone.  For a
    study without directory the log read answers what it answered
    before. *)
Theorem log_read_back E request w :
  (listdir E (study_dir_of request) ≠ None ->
   (get_execution_logs (Request.study_id request)
      (Request.execution_id request) (execute_study E request w).2).1
   = Returned (log_text (log_file_of request) (effects_of E request w)))
  ∧ (listdir E (study_dir_of request) = None ->
     (get_execution_logs (Request.study_id request)
        (Request.execution_id request) (execute_study E request w).2).1
     = (get_execution_logs (Request.study_id request)
          (Request.execution_id request) w).1).
Proof.
  destruct (execute_study_effects E request w) as (Hrun & _ & Hfiles).
  unfold get_execution_logs.
  change (path_join (path_join (path_join RESULTS_DIR
                                  (Request.study_id request))
                       (Request.execution_id request)) "execution.log")
    with (log_file_of request).
  rewrite Hfiles. split; intros Hdir.
  - destruct (run_selected_opens_log E request (started E request w))
      as (o & evs & Heq & rest & Hshape & Hrest).
    destruct (execute_study_from_runner E request w o evs Hdir Heq)
      as [_ ->].
    rewrite !replay_app, !log_text_app.
    destruct (closing_effects_log E request w o
                (replay evs
                   (replay [EvMkdir (exec_dir_of request);
                            EvPutStatus (status_file_of request)
                              (running_status E request w)] (files w))))
      as [-> ->].
    rewrite string_app_nil_r.
    destruct Hshape as [->| ->].
    + change (replay (EvLogOpen ?f :: rest) ?st)
        with (replay rest (open_log f st)).
      erewrite log_after_appends;
        [|exact Hrest|cbn; apply lookup_insert_eq].
      reflexivity.
    + change (replay (EvDefaultAnalysis :: EvLogOpen ?f :: rest) ?st)
        with (replay rest (open_log f st)).
      erewrite log_after_appends;
        [|exact Hrest|cbn; apply lookup_insert_eq].
      reflexivity.
  - destruct Hrun as [_|results evs Hdir' _|e evs Hdir' _]; try done.
    cbn. by destruct (log_files (files w) !! log_file_of request).
Qed.

(** ** The default analysis *)

Lemma wrapped_effects_read E request w o evs :
  queries ([EvMkdir (exec_dir_of request);
            EvPutStatus (status_file_of request) (running_status E request w)]
           ++ evs ++ closing_effects E request w o) = queries evs
  ∧ spawns ([EvMkdir (exec_dir_of request);
             EvPutStatus (status_file_of request)
               (running_status E request w)]
            ++ evs ++ closing_effects E request w o) = spawns evs
  ∧ log_text (log_file_of request)
      ([EvMkdir (exec_dir_of request);
        EvPutStatus (status_file_of request) (running_status E request w)]
       ++ evs ++ closing_effects E request w o)
    = log_text (log_file_of request) evs
  ∧ status_files
      (replay ([EvMkdir (exec_dir_of request);
                EvPutStatus (status_file_of request)
                  (running_status E request w)]
               ++ evs ++ closing_effects E request w o) (files w))
      !! status_file_of request
    = Some match o with
           | Returned _ => completed_status E request w
           | Raised e => failed_status E request w e
           end.
Proof.
  unfold queries, spawns. rewrite !omap_app, !log_text_app.
  destruct (closing_effects_log E request w o (files w)) as [_ ->].
  rewrite string_app_nil_r.
  repeat split; try (destruct o; cbn; by rewrite app_nil_r).
  rewrite !replay_app. destruct o; cbn; apply lookup_insert_eq.
Qed.

Lemma default_selected E request names :
  listdir E (study_dir_of request) = Some names ->
  none_matching ".R" names -> none_matching ".py" names ->
  listdir E (study_dir_of request) ≠ None
  ∧ run_selected E request
    = run_default_cohort_analysis E (exec_dir_of request)
        (log_file_of request).
Proof.
  intros Hdir HR HP. split; [congruence|]. unfold run_selected.
  by rewrite (glob_none_matching E request names ".R" Hdir HR),
    (glob_none_matching E request names ".py" Hdir HP).
Qed.

Lemma run_default_success E exec_dir log_file w d v vs i is' t :
  read_sql E Demographics = inl d ->
  read_sql E VisitStatistics = inl (v :: vs) ->
  read_sql E IcuStatistics = inl (i :: is') ->
  read_sql E TopDiagnoses = inl t ->
  run_default_cohort_analysis E exec_dir log_file w
  = (Returned
       (JObj [("analysis_type", JStr "cohort_characterization");
              ("demographics", to_dict d);
              ("visit_statistics", JObj v);
              ("icu_statistics", JObj i);
              ("top_diagnoses", to_dict t)]),
     extend w
       [EvDefaultAnalysis; EvLogOpen log_file;
        EvLogWrite log_file ("Running default cohort analysis" +:+ LF +:+ LF);
        EvQuery Demographics;
        EvLogWrite log_file
          ("Demographics: " +:+ pretty (length d) +:+ " rows" +:+ LF);
        EvQuery VisitStatistics;
        EvLogWrite log_file ("Visit statistics calculated" +:+ LF);
        EvQuery IcuStatistics;
        EvLogWrite log_file ("ICU statistics calculated" +:+ LF);
        EvQuery TopDiagnoses;
        EvLogWrite log_file
          ("Top diagnoses: " +:+ pretty (length t) +:+ " found" +:+ LF)]).
Proof.
  intros H1 H2 H3 H4. run_code.
  rewrite H1. run_code. rewrite H2. run_code. rewrite H3. run_code.
  rewrite H4. run_code. reached.
Qed.

(** X5: for a study whose directory holds no [*.R] and no [*.py] entry,
    when the four queries succeed and the visit and ICU statistics have a
    row, the execution returns completed; the result written has the five
    keys of the cohort characterization, with the first row of each
    statistic; the four queries are issued in their order, no process is
    started, and the log holds the five lines with the two row counts. *)
Theorem default_analysis_completes E request w names d v vs i is' t :
  listdir E (study_dir_of request) = Some names ->
  none_matching ".R" names -> none_matching ".py" names ->
  read_sql E Demographics = inl d ->
  read_sql E VisitStatistics = inl (v :: vs) ->
  read_sql E IcuStatistics = inl (i :: is') ->
  read_sql E TopDiagnoses = inl t ->
  (execute_study E request w).1 = Returned (completed_status E request w)
  ∧ results_persists (effects_of E request w)
    = [(results_file_of request,
        JObj [("analysis_type", JStr "cohort_characterization");
              ("demographics", JArr (JObj <$> d));
              ("visit_statistics", JObj v);
              ("icu_statistics", JObj i);
              ("top_diagnoses", JArr (JObj <$> t))])]
  ∧ queries (effects_of E request w) = default_queries
  ∧ spawns (effects_of E request w) = []
  ∧ log_text (log_file_of request) (effects_of E request w)
    = ("Running default cohort analysis" +:+ LF +:+ LF)
      +:+ ("Demographics: " +:+ pretty (length d) +:+ " rows" +:+ LF)
      +:+ ("Visit statistics calculated" +:+ LF)
      +:+ ("ICU statistics calculated" +:+ LF)
      +:+ ("Top diagnoses: " +:+ pretty (length t) +:+ " found" +:+ LF).
Proof.
  intros Hdir HR HP H1 H2 H3 H4.
  destruct (default_selected E request names Hdir HR HP) as [Hsome Hsel].
  pose proof (run_default_success E (exec_dir_of request)
                (log_file_of request) (started E request w)
                d v vs i is' t H1 H2 H3 H4) as Hrun.
  rewrite <- Hsel in Hrun.
  destruct (execute_study_from_runner E request w _ _ Hsome Hrun)
    as [Hout ->].
  destruct (wrapped_effects_read E request w
              (Returned
                 (JObj [("analysis_type", JStr "cohort_characterization");
                        ("demographics", to_dict d);
                        ("visit_statistics", JObj v);
                        ("icu_statistics", JObj i);
                        ("top_diagnoses", to_dict t)]))
              [EvDefaultAnalysis; EvLogOpen (log_file_of request);
               EvLogWrite (log_file_of request)
                 ("Running default cohort analysis" +:+ LF +:+ LF);
               EvQuery Demographics;
               EvLogWrite (log_file_of request)
                 ("Demographics: " +:+ pretty (length d) +:+ " rows" +:+ LF);
               EvQuery VisitStatistics;
               EvLogWrite (log_file_of request)
                 ("Visit statistics calculated" +:+ LF);
               EvQuery IcuStatistics;
               EvLogWrite (log_file_of request)
                 ("ICU statistics calculated" +:+ LF);
               EvQuery TopDiagnoses;
               EvLogWrite (log_file_of request)
                 ("Top diagnoses: " +:+ pretty (length t) +:+ " found"
                  +:+ LF)])
    as (-> & -> & -> & _).
  split; [exact Hout|]. split; [reflexivity|]. split; [reflexivity|].
  split; [reflexivity|].
  unfold log_text. cbn [foldr].
  rewrite !bool_decide_eq_true_2 by done.
  by rewrite string_app_nil_r.
Qed.

Lemma wrapped_results_persists E request w o evs :
  results_persists
    ([EvMkdir (exec_dir_of request);
      EvPutStatus (status_file_of request) (running_status E request w)]
     ++ evs ++ closing_effects E request w o)
  = results_persists evs
    ++ match o with
       | Returned r => [(results_file_of request, r)]
       | Raised _ => []
       end.
Proof. rewrite !results_persists_app. by destruct o. Qed.

Lemma run_default_failure E exec_dir log_file w before q after msg :
  default_queries = before ++ q :: after ->
  Forall (fun q' => ∃ rows, read_sql E q' = inl rows) before ->
  read_sql E q = inr msg ->
  ∃ evs,
    run_default_cohort_analysis E exec_dir log_file w
    = (Raised (Exception ("Default cohort analysis failed: " +:+ msg)),
       extend w evs)
    ∧ queries evs = before ++ [q]
    ∧ spawns evs = []
    ∧ results_persists evs = [].
Proof.
  unfold default_queries. intros Hq Hbefore Hfail.
  destruct before as [|b1 [|b2 [|b3 [|b4 before]]]]; simplify_eq/=.
  - run_code. rewrite Hfail. run_code.
    eexists. split; [reached|done].
  - apply Forall_cons in Hbefore as [[d1 H1] _].
    run_code. rewrite H1. run_code. rewrite Hfail. run_code.
    eexists. split; [reached|done].
  - apply Forall_cons in Hbefore as [[d1 H1] Hbefore].
    apply Forall_cons in Hbefore as [[d2 H2] _].
    run_code. rewrite H1. run_code. rewrite H2. run_code.
    rewrite Hfail. run_code.
    eexists. split; [reached|done].
  - apply Forall_cons in Hbefore as [[d1 H1] Hbefore].
    apply Forall_cons in Hbefore as [[d2 H2] Hbefore].
    apply Forall_cons in Hbefore as [[d3 H3] _].
    run_code. rewrite H1. run_code. rewrite H2. run_code.
    rewrite H3. run_code. rewrite Hfail. run_code.
    eexists. split; [reached|done].
  - by destruct before.
Qed.

(** X6: in the default analysis the queries run in their order up to the
    first that fails, and no further; the execution then ends failed, its
    error message the text of the database error behind
    [Default cohort analysis failed: ], and no results are written. *)
Theorem default_analysis_stops_at_first_failure E request w names before q
    after msg :
  listdir E (study_dir_of request) = Some names ->
  none_matching ".R" names -> none_matching ".py" names ->
  default_queries = before ++ q :: after ->
  Forall (fun q' => ∃ rows, read_sql E q' = inl rows) before ->
  read_sql E q = inr msg ->
  (execute_study E request w).1
  = Raised (HTTPException 500
              ("Execution failed: "
               +:+ ("Default cohort analysis failed: " +:+ msg)))
  ∧ queries (effects_of E request w) = before ++ [q]
  ∧ spawns (effects_of E request w) = []
  ∧ results_persists (effects_of E request w) = []
  ∧ ∃ s,
      status_files (files (execute_study E request w).2)
        !! status_file_of request = Some s
      ∧ status s = "failed"
      ∧ error_message s
        = Some ("Default cohort analysis failed: " +:+ msg).
Proof.
  intros Hdir HR HP Hq Hbefore Hfail.
  destruct (default_selected E request names Hdir HR HP) as [Hsome Hsel].
  destruct (run_default_failure E (exec_dir_of request)
              (log_file_of request) (started E request w)
              before q after msg Hq Hbefore Hfail)
    as (evs & Hrun & Hqueries & Hspawns & Hresults).
  rewrite <- Hsel in Hrun.
  destruct (execute_study_from_runner E request w _ _ Hsome Hrun)
    as [Hout Hevs].
  destruct (execute_study_effects E request w) as (_ & _ & Hfiles).
  rewrite Hfiles, Hevs, wrapped_results_persists, Hresults.
  destruct (wrapped_effects_read E request w
              (Raised (Exception
                         ("Default cohort analysis failed: " +:+ msg))) evs)
    as (-> & -> & _ & ->).
  split; [exact Hout|]. split; [exact Hqueries|]. split; [exact Hspawns|].
  split; [done|by eexists].
Qed.

Lemma run_default_no_rows E exec_dir log_file w d v i t :
  read_sql E Demographics = inl d ->
  read_sql E VisitStatistics = inl v ->
  read_sql E IcuStatistics = inl i ->
  read_sql E TopDiagnoses = inl t ->
  v = [] ∨ i = [] ->
  run_default_cohort_analysis E exec_dir log_file w
  = (Raised (Exception ("Default cohort analysis failed: "
                        +:+ "list index out of range")),
     extend w (default_effects log_file (length d) (length t))).
Proof.
  intros H1 H2 H3 H4 Hempty. run_code.
  rewrite H1. run_code. rewrite H2. run_code. rewrite H3. run_code.
  rewrite H4. run_code.
  destruct v as [|r2 v]; run_code; [reached|].
  destruct Hempty as [? | ->]; [done|]. run_code. reached.
Qed.

(** X7: when the four queries of the default analysis succeed but the
    visit statistics or the ICU statistics come back without a row, the
    execution ends failed with [list index out of range] as the cause,
    after all four queries were issued and all five log lines written. *)
Theorem default_analysis_fails_without_rows E request w names d v i t :
  listdir E (study_dir_of request) = Some names ->
  none_matching ".R" names -> none_matching ".py" names ->
  read_sql E Demographics = inl d ->
  read_sql E VisitStatistics = inl v ->
  read_sql E IcuStatistics = inl i ->
  read_sql E TopDiagnoses = inl t ->
  v = [] ∨ i = [] ->
  (execute_study E request w).1
  = Raised (HTTPException 500
              ("Execution failed: "
               +:+ ("Default cohort analysis failed: "
                    +:+ "list index out of range")))
  ∧ queries (effects_of E request w) = default_queries
  ∧ results_persists (effects_of E request w) = []
  ∧ log_text (log_file_of request) (effects_of E request w)
    = ("Running default cohort analysis" +:+ LF +:+ LF)
      +:+ ("Demographics: " +:+ pretty (length d) +:+ " rows" +:+ LF)
      +:+ ("Visit statistics calculated" +:+ LF)
      +:+ ("ICU statistics calculated" +:+ LF)
      +:+ ("Top diagnoses: " +:+ pretty (length t) +:+ " found" +:+ LF)
  ∧ ∃ s,
      status_files (files (execute_study E request w).2)
        !! status_file_of request = Some s
      ∧ status s = "failed"
      ∧ error_message s
        = Some ("Default cohort analysis failed: "
                +:+ "list index out of range").
Proof.
  intros Hdir HR HP H1 H2 H3 H4 Hempty.
  destruct (default_selected E request names Hdir HR HP) as [Hsome Hsel].
  pose proof (run_default_no_rows E (exec_dir_of request)
                (log_file_of request) (started E request w)
                d v i t H1 H2 H3 H4 Hempty) as Hrun.
  rewrite <- Hsel in Hrun.
  destruct (execute_study_from_runner E request w _ _ Hsome Hrun)
    as [Hout Hevs].
  destruct (execute_study_effects E request w) as (_ & _ & Hfiles).
  rewrite Hfiles, Hevs, wrapped_results_persists.
  destruct (wrapped_effects_read E request w
              (Raised (Exception ("Default cohort analysis failed: "
                                  +:+ "list index out of range")))
              (default_effects (log_file_of request) (length d) (length t)))
    as (-> & _ & -> & ->).
  split; [exact Hout|]. split; [reflexivity|]. split; [reflexivity|].
  split; [|by eexists].
  unfold log_text, default_effects. cbn [foldr].
  rewrite !bool_decide_eq_true_2 by done.
  by rewrite string_app_nil_r.
Qed.

(** ** Child processes *)

Lemma substring_all (s : string) :
  String.substring 0 (String.length s) s = s.
Proof. induction s as [|c s IH]; [done|]. cbn. by rewrite IH. Qed.

Lemma substring_skip (stem s : string) k :
  String.substring (String.length stem) k (stem +:+ s)
  = String.substring 0 k s.
Proof.
  induction stem as [|c stem IH]; [done|].
  change (String c stem +:+ s) with (String c (stem +:+ s)). cbn. exact IH.
Qed.

Lemma string_length_app (s1 s2 : string) :
  String.length (s1 +:+ s2) = (String.length s1 + String.length s2)%nat.
Proof.
  induction s1 as [|c s1 IH]; [done|].
  change (String c s1 +:+ s2) with (String c (s1 +:+ s2)). cbn.
  by rewrite IH.
Qed.

Lemma substring_split (s : string) m k :
  (m + k = String.length s)%nat ->
  s = String.substring 0 m s +:+ String.substring m k s.
Proof.
  revert m. induction s as [|c s IH]; intros m Hm.
  - cbn in Hm. assert (m = 0%nat) by lia. assert (k = 0%nat) by lia.
    by subst.
  - destruct m as [|m].
    + cbn in Hm. subst k. cbn [String.substring].
      change (String.substring 0 (S (String.length s)) (String c s))
        with (String c (String.substring 0 (String.length s) s)).
      by rewrite substring_all.
    + cbn in Hm. cbn [String.substring].
      change (String c (String.substring 0 m s) +:+ String.substring m k s)
        with (String c (String.substring 0 m s +:+ String.substring m k s)).
      f_equal. apply IH. lia.
Qed.

(** The entries a pattern [*suffix] selects are the names that end with
    the suffix. *)
Lemma endswith_spec name suffix :
  endswith name suffix = true ↔ ∃ stem, name = stem +:+ suffix.
Proof.
  unfold endswith. split.
  - intros H. apply andb_true_iff in H as [Hle Heq].
    apply Nat.leb_le in Hle. apply String.eqb_eq in Heq.
    exists (String.substring 0 (String.length name - String.length suffix)
              name).
    pose proof (substring_split name
                  (String.length name - String.length suffix)
                  (String.length suffix) ltac:(lia)) as Hs.
    by rewrite Heq in Hs.
  - intros [stem ->]. rewrite string_length_app. apply andb_true_iff. split.
    + apply Nat.leb_le. lia.
    + apply String.eqb_eq.
      replace (String.length stem + String.length suffix
               - String.length suffix)%nat
        with (String.length stem) by lia.
      rewrite substring_skip. apply substring_all.
Qed.

Lemma glob_head E request suffix script rest :
  glob E (study_dir_of request) suffix = script :: rest ->
  ∃ names stem,
    listdir E (study_dir_of request) = Some names
    ∧ (stem +:+ suffix) ∈ names
    ∧ script = path_join (study_dir_of request) (stem +:+ suffix).
Proof.
  unfold glob. destruct (listdir E (study_dir_of request)) as [names|];
    [|done].
  intros Hglob.
  destruct (filter (λ n, endswith n suffix = true) names) as [|name l]
    eqn:Hfilter; [done|].
  assert (name ∈ filter (λ n, endswith n suffix = true) names) as Hin
    by (rewrite Hfilter; apply elem_of_cons; by left).
  apply list_elem_of_filter in Hin as [Hend Hin].
  apply endswith_spec in Hend as [stem ->].
  exists names, stem. cbn in Hglob. by simplify_eq.
Qed.

Lemma script_run_spawns E interpreter label script exec_dir log_file
    parameters timeout o evs :
  script_run E interpreter label script exec_dir log_file parameters timeout
    o evs ->
  spawns evs = [([interpreter; script], exec_dir, timeout)].
Proof. by destruct 1. Qed.

Lemma default_launch_spawns evs :
  launches evs = [LaunchDefault] -> spawns evs = [].
Proof.
  assert (∀ l, launches evs = l -> Forall (eq LaunchDefault) l ->
               spawns evs = []) as H.
  { induction evs as [|ev evs IH]; intros l Hl Hall; [done|].
    destruct ev; cbn in *; try by eapply IH.
    - subst l. by apply Forall_cons in Hall as [? _].
    - subst l. apply Forall_cons in Hall as [_ Hall]. by eapply IH. }
  intros Hl. apply (H _ Hl). by repeat constructor.
Qed.

(** X8: an execution starts at most one child process.  When it starts
    one, the command is [Rscript] or [python3] with one argument, a file
    of the request's own study directory whose name ends in [.R] or [.py]
    respectively; the working directory is the execution directory and
    the timeout is the one of the request. *)
Theorem at_most_one_child_process E request w :
  spawns (effects_of E request w) = []
  ∨ ∃ interpreter suffix names stem,
      ((interpreter = "Rscript" ∧ suffix = ".R")
       ∨ (interpreter = "python3" ∧ suffix = ".py"))
      ∧ listdir E (study_dir_of request) = Some names
      ∧ (stem +:+ suffix) ∈ names
      ∧ spawns (effects_of E request w)
        = [([interpreter;
             path_join (study_dir_of request) (stem +:+ suffix)],
            exec_dir_of request, Request.timeout request)].
Proof.
  destruct (execute_study_effects E request w) as (Hrun & _ & _).
  assert (∀ o evs,
            runnable_run E request o evs ->
            spawns evs = []
            ∨ ∃ interpreter suffix names stem,
                ((interpreter = "Rscript" ∧ suffix = ".R")
                 ∨ (interpreter = "python3" ∧ suffix = ".py"))
                ∧ listdir E (study_dir_of request) = Some names
                ∧ (stem +:+ suffix) ∈ names
                ∧ spawns evs
                  = [([interpreter;
                       path_join (study_dir_of request) (stem +:+ suffix)],
                      exec_dir_of request, Request.timeout request)])
    as Hrunner.
  { intros o evs [script rest o' evs' HR Hs|script rest o' evs' HR HP Hs
                 |o' evs' HR HP (Hl & _ & _)].
    - right. apply glob_head in HR as (names & stem & Hdir & Hin & ->).
      apply script_run_spawns in Hs. exists "Rscript", ".R", names, stem.
      auto.
    - right. apply glob_head in HP as (names & stem & Hdir & Hin & ->).
      apply script_run_spawns in Hs. exists "python3", ".py", names, stem.
      auto.
    - left. by apply default_launch_spawns. }
  destruct Hrun as [Hdir|results evs Hdir Hrun|e evs Hdir Hrun].
  - by left.
  - destruct (Hrunner _ _ Hrun) as [Hs|(i & sf & names & stem & H)].
    + left. unfold spawns in *. by rewrite !omap_app, Hs.
    + right. exists i, sf, names, stem.
      destruct H as (? & ? & ? & Hs). repeat split; try done.
      unfold spawns in *. by rewrite !omap_app, Hs.
  - destruct (Hrunner _ _ Hrun) as [Hs|(i & sf & names & stem & H)].
    + left. unfold spawns in *. by rewrite !omap_app, Hs.
    + right. exists i, sf, names, stem.
      destruct H as (? & ? & ? & Hs). repeat split; try done.
      unfold spawns in *. by rewrite !omap_app, Hs.
Qed.

Lemma script_run_error_inv E interpreter label script exec_dir log_file
    parameters timeout msg o evs :
  run E [interpreter; script] exec_dir timeout = RunError msg ->
  script_run E interpreter label script exec_dir log_file parameters timeout
    o evs ->
  o = Raised (Exception msg)
  ∧ evs = script_header E label script log_file parameters
          ++ [EvSpawn [interpreter; script] exec_dir timeout].
Proof.
  intros Hrun. destruct 1 as [|msg' Hrun'| | |]; try congruence.
  rewrite Hrun in Hrun'. by simplify_eq.
Qed.

(** X9: when the child process of the chosen script cannot be run (the
    call fails otherwise than by the timeout), the execution ends failed
    with the text of that error as error message; the log holds the two
    header lines only and no results are written. *)
Theorem spawn_failure_fails_execution E request w interpreter label script
    msg :
  chosen_script E request interpreter label script ->
  run E [interpreter; script] (exec_dir_of request) (Request.timeout request)
    = RunError msg ->
  (execute_study E request w).1
  = Raised (HTTPException 500 ("Execution failed: " +:+ msg))
  ∧ (∃ s,
       status_files (files (execute_study E request w).2)
         !! status_file_of request = Some s
       ∧ status s = "failed"
       ∧ error_message s = Some msg)
  ∧ results_persists (effects_of E request w) = []
  ∧ log_files (files (execute_study E request w).2) !! log_file_of request
    = Some (("Executing " +:+ label +:+ " script: " +:+ script +:+ LF)
            +:+ ("Parameters: " +:+ json_dumps E (Request.parameters request)
                 +:+ LF +:+ LF)).
Proof.
  intros Hc Hrun.
  destruct (chosen_script_effects E request w _ _ _ Hc)
    as (o & evs & Hscript & Hout & Hevs).
  destruct (script_run_error_inv E _ _ _ _ _ _ _ _ _ _ Hrun Hscript)
    as [-> ->].
  destruct (execute_study_effects E request w) as (_ & _ & Hfiles).
  rewrite Hfiles, Hevs. split; [exact Hout|]. split; [|split].
  - eexists. rewrite app_assoc. split; [apply status_after_put|]. done.
  - done.
  - rewrite <- app_assoc. by apply log_after_header.
Qed.

(** ** What the request's parameters and timeout reach *)

Lemma execute_script_parameters E interpreter label script exec_dir log_file
    timeout p p' w :
  ∃ o evs evs',
    execute_script E interpreter label script exec_dir log_file p timeout w
    = (o, extend w evs)
    ∧ execute_script E interpreter label script exec_dir log_file p' timeout w
      = (o, extend w evs')
    ∧ spawns evs = spawns evs'
    ∧ Forall (runner_event log_file) evs
    ∧ Forall (runner_event log_file) evs'.
Proof.
  run_code.
  destruct (run E [interpreter; script] exec_dir timeout)
    as [rc out err|out err|msg]; run_code.
  - case_bool_decide; run_code.
    + eexists _, _, _. split; [reached|]. split; [reached|].
      split; [reflexivity|]. split; repeat constructor.
    + destruct (json_loads E out); run_code;
        (eexists _, _, _; split; [reached|]; split; [reached|];
         split; [reflexivity|]; split; repeat constructor).
  - eexists _, _, _. split; [reached|]. split; [reached|].
    split; [reflexivity|]. split; repeat constructor.
  - eexists _, _, _. split; [reached|]. split; [reached|].
    split; [reflexivity|]. split; repeat constructor.
Qed.

Lemma run_selected_parameters E sid eid timeout p p' w :
  ∃ o evs evs',
    run_selected E
      {| Request.study_id := sid; Request.execution_id := eid;
         Request.parameters := p; Request.timeout := timeout |} w
    = (o, extend w evs)
    ∧ run_selected E
        {| Request.study_id := sid; Request.execution_id := eid;
           Request.parameters := p'; Request.timeout := timeout |} w
      = (o, extend w evs')
    ∧ spawns evs = spawns evs'
    ∧ Forall (runner_event
                (path_join (path_join (path_join RESULTS_DIR sid) eid)
                   "execution.log")) evs
    ∧ Forall (runner_event
                (path_join (path_join (path_join RESULTS_DIR sid) eid)
                   "execution.log")) evs'.
Proof.
  unfold run_selected, study_dir_of, exec_dir_of, log_file_of.
  cbn [Request.study_id Request.execution_id Request.parameters
       Request.timeout].
  destruct (glob E (path_join STUDIES_DIR sid) ".R") as [|r rs].
  - destruct (glob E (path_join STUDIES_DIR sid) ".py") as [|py pys].
    + destruct (run_default_cohort_analysis_run E
                  (path_join (path_join RESULTS_DIR sid) eid)
                  (path_join (path_join (path_join RESULTS_DIR sid) eid)
                     "execution.log") w)
        as (o & evs & Heq & Hl & Hev & _).
      exists o, evs, evs. auto.
    + unfold execute_python_script. apply execute_script_parameters.
  - unfold execute_r_script. apply execute_script_parameters.
Qed.

(** X10: the parameters of a request reach the log and nothing else: two
    requests that differ in their parameters only end with the same
    outcome for the caller, the same status files and results files, and
    the same child process. *)
Theorem parameters_reach_only_the_log E sid eid timeout p p' w :
  (execute_study E
     {| Request.study_id := sid; Request.execution_id := eid;
        Request.parameters := p'; Request.timeout := timeout |} w).1
  = (execute_study E
       {| Request.study_id := sid; Request.execution_id := eid;
          Request.parameters := p; Request.timeout := timeout |} w).1
  ∧ status_files
      (files (execute_study E
                {| Request.study_id := sid; Request.execution_id := eid;
                   Request.parameters := p'; Request.timeout := timeout |}
                w).2)
    = status_files
        (files (execute_study E
                  {| Request.study_id := sid; Request.execution_id := eid;
                     Request.parameters := p; Request.timeout := timeout |}
                  w).2)
  ∧ results_files
      (files (execute_study E
                {| Request.study_id := sid; Request.execution_id := eid;
                   Request.parameters := p'; Request.timeout := timeout |}
                w).2)
    = results_files
        (files (execute_study E
                  {| Request.study_id := sid; Request.execution_id := eid;
                     Request.parameters := p; Request.timeout := timeout |}
                  w).2)
  ∧ spawns
      (effects_of E
         {| Request.study_id := sid; Request.execution_id := eid;
            Request.parameters := p'; Request.timeout := timeout |} w)
    = spawns
        (effects_of E
           {| Request.study_id := sid; Request.execution_id := eid;
              Request.parameters := p; Request.timeout := timeout |} w).
Proof.
  set (r := {| Request.study_id := sid; Request.execution_id := eid;
               Request.parameters := p; Request.timeout := timeout |}).
  set (r' := {| Request.study_id := sid; Request.execution_id := eid;
                Request.parameters := p'; Request.timeout := timeout |}).
  destruct (execute_study_effects E r w) as (Hrun & _ & Hfiles).
  destruct (execute_study_effects E r' w) as (Hrun' & _ & Hfiles').
  rewrite Hfiles, Hfiles'.
  destruct (decide (listdir E (study_dir_of r) = None)) as [Hdir|Hdir].
  - destruct Hrun as [_|? ? Hd _|? ? Hd _]; try done.
    destruct Hrun' as [_|? ? Hd _|? ? Hd _]; try done.
  - destruct (run_selected_parameters E sid eid timeout p p'
                (started E r w)) as (o & evs & evs' & Heq & Heq' & Hs & Hev & Hev').
    destruct (execute_study_from_runner E r w o evs Hdir Heq) as [-> ->].
    destruct (execute_study_from_runner E r' w o evs' Hdir Heq')
      as [-> ->].
    split; [done|].
    rewrite !replay_app.
    destruct (runner_events_files _ evs
                (replay [EvMkdir (exec_dir_of r);
                         EvPutStatus (status_file_of r)
                           (running_status E r w)] (files w)) Hev)
      as [Hst Hrs].
    destruct (runner_events_files _ evs'
                (replay [EvMkdir (exec_dir_of r');
                         EvPutStatus (status_file_of r')
                           (running_status E r' w)] (files w)) Hev')
      as [Hst' Hrs'].
    split; [|split].
    + destruct o; cbn; cbn in Hst, Hst'; by rewrite Hst, Hst'.
    + destruct o; cbn; cbn in Hrs, Hrs'; by rewrite Hrs, Hrs'.
    + unfold spawns in *. rewrite !omap_app, Hs. by destruct o.
Qed.

(** X11: for a study whose directory holds no [*.R] and no [*.py] entry,
    neither the timeout nor the parameters of the request have any
    effect: two requests with the same ids end with the same outcome, the
    same effects and the same files.  The default analysis runs under no
    timeout. *)
Theorem default_analysis_ignores_timeout E sid eid p timeout p' timeout' w
    names :
  listdir E (path_join STUDIES_DIR sid) = Some names ->
  none_matching ".R" names -> none_matching ".py" names ->
  (execute_study E
     {| Request.study_id := sid; Request.execution_id := eid;
        Request.parameters := p'; Request.timeout := timeout' |} w).1
  = (execute_study E
       {| Request.study_id := sid; Request.execution_id := eid;
          Request.parameters := p; Request.timeout := timeout |} w).1
  ∧ effects_of E
      {| Request.study_id := sid; Request.execution_id := eid;
         Request.parameters := p'; Request.timeout := timeout' |} w
    = effects_of E
        {| Request.study_id := sid; Request.execution_id := eid;
           Request.parameters := p; Request.timeout := timeout |} w
  ∧ files
      (execute_study E
         {| Request.study_id := sid; Request.execution_id := eid;
            Request.parameters := p'; Request.timeout := timeout' |} w).2
    = files
        (execute_study E
           {| Request.study_id := sid; Request.execution_id := eid;
              Request.parameters := p; Request.timeout := timeout |} w).2.
Proof.
  intros Hdir HR HP.
  set (r := {| Request.study_id := sid; Request.execution_id := eid;
               Request.parameters := p; Request.timeout := timeout |}).
  set (r' := {| Request.study_id := sid; Request.execution_id := eid;
                Request.parameters := p'; Request.timeout := timeout' |}).
  destruct (default_selected E r names Hdir HR HP) as [Hsome Hsel].
  destruct (default_selected E r' names Hdir HR HP) as [Hsome' Hsel'].
  destruct (run_default_cohort_analysis_run E (exec_dir_of r)
              (log_file_of r) (started E r w)) as (o & evs & Heq & _).
  pose proof Heq as Heq'.
  rewrite <- Hsel in Heq.
  change (run_default_cohort_analysis E (exec_dir_of r) (log_file_of r))
    with (run_default_cohort_analysis E (exec_dir_of r') (log_file_of r'))
    in Heq'.
  rewrite <- Hsel' in Heq'.
  destruct (execute_study_from_runner E r w o evs Hsome Heq) as [Ho He].
  destruct (execute_study_from_runner E r' w o evs Hsome' Heq')
    as [Ho' He'].
  destruct (execute_study_effects E r w) as (_ & _ & Hfiles).
  destruct (execute_study_effects E r' w) as (_ & _ & Hfiles').
  rewrite Hfiles, Hfiles', Ho, Ho', He, He'. done.
Qed.

(** ** The backend's execution endpoint *)

(** X12: the execution endpoint of the backend answers a status only when
    it posted the request and the executor answered 200; otherwise it
    raises an HTTP error whose code is 500 or 503, and 503 only when the
    post itself failed with an HTTP transport error.  Neither its own 404
    for an unknown study nor the status code of the executor is passed
    on. *)
Theorem backend_execute_raises_500_or_503 B study execution :
  match (BackendApi.execute_study B study execution).1 with
  | Returned s =>
      ∃ resp result,
        BackendApi.post B (BackendApi.CODE_EXECUTION_URL +:+ "/execute")
          (BackendApi.payload B study execution) = inl resp
        ∧ BackendApi.status_code resp = 200
        ∧ BackendApi.json_body resp = inl result
        ∧ BackendApi.validate B result = inl s
  | Raised e =>
      (∃ detail, e = HTTPException 500 ("Execution failed: " +:+ detail))
      ∨ (∃ msg,
           e = HTTPException 503 ("Code executor unavailable: " +:+ msg)
           ∧ BackendApi.post B (BackendApi.CODE_EXECUTION_URL +:+ "/execute")
               (BackendApi.payload B study execution)
             = inr (BackendApi.HTTPError msg))
  end.
Proof.
  unfold BackendApi.execute_study, BackendApi.execute_study_try.
  destruct (BackendApi.dir_exists B (path_join STUDIES_DIR study));
    cbn [negb fst]; [|eauto].
  destruct (BackendApi.post B _ _) as [resp|[msg|e]] eqn:Hpost;
    cbn [fst]; [|eauto..].
  case_bool_decide as Hcode; cbn [fst]; [eauto|].
  destruct (BackendApi.json_body resp) as [result|msg] eqn:Hbody;
    cbn [fst]; [|eauto].
  destruct (BackendApi.validate B result) as [s|msg] eqn:Hs;
    cbn [fst]; [|eauto].
  exists resp, result. repeat split; done.
Qed.

(** X13: for a study without directory the backend posts nothing to the
    executor, and its [404 Study not found] reaches the caller as an HTTP
    500 error that quotes it. *)
Theorem backend_execute_unknown_study B study execution :
  BackendApi.dir_exists B (path_join STUDIES_DIR study) = false ->
  BackendApi.execute_study B study execution
  = (Raised (HTTPException 500
               ("Execution failed: "
                +:+ BackendApi.str B (HTTPException 404 "Study not found"))),
     []).
Proof.
  intros Hdir.
  unfold BackendApi.execute_study, BackendApi.execute_study_try.
  by rewrite Hdir.
Qed.

(** X14: when the executor answers with a status code other than 200, the
    backend raises HTTP 500 whatever that code was, quoting the code and
    the body of the answer; exactly one request was posted, with the study
    id of the URL, the execution id of the body or else a fresh one, and
    no timeout. *)
Theorem backend_execute_executor_error B study execution resp :
  BackendApi.dir_exists B (path_join STUDIES_DIR study) = true ->
  BackendApi.post B (BackendApi.CODE_EXECUTION_URL +:+ "/execute")
    (BackendApi.payload B study execution) = inl resp ->
  BackendApi.status_code resp ≠ 200 ->
  BackendApi.execute_study B study execution
  = (Raised (HTTPException 500
               ("Execution failed: "
                +:+ BackendApi.str B
                      (HTTPException (BackendApi.status_code resp)
                         ("Code executor error: "
                          +:+ BackendApi.text resp)))),
     [(BackendApi.CODE_EXECUTION_URL +:+ "/execute",
       JObj [("study_id", JStr study);
             ("execution_id",
              JStr match execution with
                   | None => BackendApi.uuid4 B
                   | Some ex => BackendApi.execution_id ex
                   end);
             ("parameters",
              match execution with
              | None => JObj []
              | Some ex =>
                  match BackendApi.parameters ex with
                  | Some p => p
                  | None => JNull
                  end
              end)])]).
Proof.
  intros Hdir Hpost Hcode.
  unfold BackendApi.execute_study, BackendApi.execute_study_try.
  rewrite Hdir, Hpost. cbn [negb].
  by rewrite bool_decide_eq_true_2.
Qed.

(** ** The study registry *)

Lemma register_study_metadata_file R study_file name desc res inst st :
  Registry.metadata_file (Registry.uuid4 R)
    (Registry.register_study R study_file name desc res inst st).2
  = Some (Registry.encode R
            (Registry.register_study R study_file name desc res inst st).1).
Proof.
  unfold Registry.metadata_file, Registry.register_study,
    Registry.write_file, Registry.mkdir. cbn [fst snd].
  rewrite !lookup_insert_eq. cbn. by rewrite lookup_insert_eq.
Qed.

(** X15: a study just registered is found by [get_study] under the id
    returned, with the metadata returned, provided the metadata text
    written decodes to the metadata; this holds also when the upload
    itself is named [metadata.json]. *)
Theorem register_then_get_study R study_file name desc res inst st :
  Registry.decode R
    (Registry.encode R
       (Registry.register_study R study_file name desc res inst st).1)
  = inl (Registry.register_study R study_file name desc res inst st).1 ->
  Registry.study_id
    (Registry.register_study R study_file name desc res inst st).1
  = Registry.uuid4 R
  ∧ Registry.get_study R (Registry.uuid4 R)
      (Registry.register_study R study_file name desc res inst st).2
    = Returned (Registry.register_study R study_file name desc res inst st).1.
Proof.
  intros Hcodec. split; [reflexivity|].
  unfold Registry.get_study.
  by rewrite register_study_metadata_file, Hcodec.
Qed.

(** The directory of the new id after [register_study], by file name. *)
Lemma register_study_directory R study_file name desc res inst st :
  ∃ dir,
    (Registry.register_study R study_file name desc res inst st).2
      !! Registry.uuid4 R = Some dir
    ∧ dir !! "metadata.json"
      = Some (Registry.encode R
                (Registry.register_study R study_file name desc res inst
                   st).1)
    ∧ (Registry.filename study_file ≠ "metadata.json" ->
       dir !! Registry.filename study_file
       = Some (Registry.content study_file))
    ∧ (st !! Registry.uuid4 R = None ->
       ∀ n, n ≠ "metadata.json" -> n ≠ Registry.filename study_file ->
            dir !! n = None).
Proof.
  unfold Registry.register_study, Registry.write_file, Registry.mkdir.
  cbn [fst snd]. eexists. split; [apply lookup_insert_eq|].
  rewrite !lookup_insert_eq. cbn. split; [done|]. split.
  - intros Hne. rewrite lookup_insert_ne by done. apply lookup_insert_eq.
  - intros Hfresh n Hn1 Hn2.
    rewrite !lookup_insert_ne, Hfresh by done. done.
Qed.

(** X16: registering an upload whose file name is a plain name leaves
    every other study directory as it was; in the directory of the new id,
    [metadata.json] holds the metadata text, the upload is stored under
    its file name unless that name is [metadata.json] (then the metadata
    replaces it), and a directory that was not there before holds nothing
    else. *)
Theorem register_study_files R study_file name desc res inst st :
  plain_name (Registry.filename study_file) = true ->
  (∀ study, study ≠ Registry.uuid4 R ->
     (Registry.register_study R study_file name desc res inst st).2 !! study
     = st !! study)
  ∧ ∃ dir,
      (Registry.register_study R study_file name desc res inst st).2
        !! Registry.uuid4 R = Some dir
      ∧ dir !! "metadata.json"
        = Some (Registry.encode R
                  (Registry.register_study R study_file name desc res inst
                     st).1)
      ∧ (Registry.filename study_file ≠ "metadata.json" ->
         dir !! Registry.filename study_file
         = Some (Registry.content study_file))
      ∧ (st !! Registry.uuid4 R = None ->
         ∀ n, n ≠ "metadata.json" -> n ≠ Registry.filename study_file ->
              dir !! n = None).
Proof.
  intros _. split; [|apply register_study_directory].
  intros study Hne.
  unfold Registry.register_study, Registry.write_file, Registry.mkdir.
  cbn [fst snd]. by rewrite !lookup_insert_ne.
Qed.

(** X17: when [list_studies] returns, every listed study that has a
    [metadata.json] is in the answer with its decoded metadata; so a study
    just registered is in the answer. *)
Theorem list_studies_complete R listing st studies :
  Registry.list_studies R listing st = Returned studies ->
  ∀ study text,
    study ∈ listing ->
    Registry.metadata_file study st = Some text ->
    ∃ metadata,
      Registry.decode R text = inl metadata ∧ metadata ∈ studies.
Proof.
  revert studies. induction listing as [|s listing IH]; intros studies Hl.
  - intros study text Hin. by apply elem_of_nil in Hin.
  - cbn in Hl.
    destruct (Registry.metadata_file s st) as [t|] eqn:Hs.
    + destruct (Registry.decode R t) as [m|msg] eqn:Hd; [|done].
      destruct (Registry.list_studies R listing st) as [l|e] eqn:Hrest;
        [|done].
      simplify_eq. intros study text Hin Hm.
      apply elem_of_cons in Hin as [->|Hin].
      * rewrite Hs in Hm. simplify_eq. exists m.
        split; [done|]. apply elem_of_cons. by left.
      * destruct (IH l eq_refl study text Hin Hm) as (m' & ? & ?).
        exists m'. split; [done|]. apply elem_of_cons. by right.
    + intros study text Hin Hm.
      apply elem_of_cons in Hin as [->|Hin]; [congruence|].
      by apply (IH studies Hl study text).
Qed.

(** ** Registered studies and script resolution *)

Lemma filter_unique {A} (P : A -> Prop) `{∀ x, Decision (P x)}
    (l : list A) (a : A) :
  NoDup l -> a ∈ l -> P a -> (∀ x, x ∈ l -> P x -> x = a) ->
  filter P l = [a].
Proof.
  intros Hnd Hin Ha Huniq. apply Permutation_singleton_r.
  apply NoDup_Permutation.
  - by apply NoDup_filter.
  - apply NoDup_singleton.
  - intros x. rewrite list_elem_of_filter, list_elem_of_singleton. split.
    + intros [? ?]. by apply Huniq.
    + by intros ->.
Qed.

Lemma filter_nothing {A} (P : A -> Prop) `{∀ x, Decision (P x)}
    (l : list A) :
  (∀ x, x ∈ l -> ¬ P x) -> filter P l = [].
Proof.
  intros Hnone. induction l as [|x l IH]; [done|].
  rewrite filter_cons_False.
  - apply IH. intros y Hy. apply Hnone. apply elem_of_cons. by right.
  - apply Hnone. apply elem_of_cons. by left.
Qed.

(** The names in the directory of a study just registered under a fresh
    id. *)
Lemma registered_directory_names R study_file name desc res inst st n :
  st !! Registry.uuid4 R = None ->
  (∃ dir,
     (Registry.register_study R study_file name desc res inst st).2
       !! Registry.uuid4 R = Some dir
     ∧ is_Some (dir !! n))
  ↔ n = "metadata.json" ∨ n = Registry.filename study_file.
Proof.
  intros Hfresh.
  destruct (register_study_directory R study_file name desc res inst st)
    as (dir & Hdir & Hmeta & Hupload & Hother).
  split.
  - intros (dir' & Hdir' & Hn). rewrite Hdir in Hdir'. simplify_eq.
    destruct (decide (n = "metadata.json")) as [|Hn1]; [by left|].
    destruct (decide (n = Registry.filename study_file)) as [|Hn2];
      [by right|].
    rewrite (Hother Hfresh n Hn1 Hn2) in Hn. by destruct Hn.
  - intros [->| ->]; exists dir; (split; [done|]).
    + by rewrite Hmeta.
    + destruct (decide (Registry.filename study_file = "metadata.json"))
        as [->|Hne]; [by rewrite Hmeta|by rewrite Hupload].
Qed.

Lemma registered_listing R study_file name desc res inst st
    (names : list string) :
  st !! Registry.uuid4 R = None ->
  (∀ n, n ∈ names
        ↔ ∃ dir,
            (Registry.register_study R study_file name desc res inst st).2
              !! Registry.uuid4 R = Some dir
            ∧ is_Some (dir !! n)) ->
  ∀ n, n ∈ names ↔ n = "metadata.json" ∨ n = Registry.filename study_file.
Proof.
  intros Hfresh Hnames n. rewrite Hnames.
  by apply registered_directory_names.
Qed.

(** X18: for a study just registered under a fresh id from an upload
    whose file name is a plain name, whose directory the executor lists in
    whatever order, the runnable does not depend on that order: the upload
    is run with [Rscript] when its name ends in [.R], with [python3] when
    it ends in [.py], and the default analysis runs otherwise. *)
Theorem registered_study_runs_its_upload R study_file name desc res inst st
    E request w names :
  plain_name (Registry.filename study_file) = true ->
  st !! Registry.uuid4 R = None ->
  Request.study_id request = Registry.uuid4 R ->
  listdir E (study_dir_of request) = Some names ->
  NoDup names ->
  (∀ n, n ∈ names
        ↔ ∃ dir,
            (Registry.register_study R study_file name desc res inst st).2
              !! Registry.uuid4 R = Some dir
            ∧ is_Some (dir !! n)) ->
  (endswith (Registry.filename study_file) ".R" = true ->
   launches (effects_of E request w)
   = [LaunchProcess
        ["Rscript";
         path_join (study_dir_of request) (Registry.filename study_file)]])
  ∧ (endswith (Registry.filename study_file) ".R" = false ->
     endswith (Registry.filename study_file) ".py" = true ->
     launches (effects_of E request w)
     = [LaunchProcess
          ["python3";
           path_join (study_dir_of request) (Registry.filename study_file)]])
  ∧ (endswith (Registry.filename study_file) ".R" = false ->
     endswith (Registry.filename study_file) ".py" = false ->
     launches (effects_of E request w) = [LaunchDefault]).
Proof.
  intros _ Hfresh _ Hdir Hnd Hnames.
  pose proof (registered_listing R study_file name desc res inst st names
                Hfresh Hnames) as Hin.
  assert (listdir E (study_dir_of request) ≠ None) as Hsome by congruence.
  destruct (execute_study_effects E request w) as (Hrun & _ & _).
  rewrite (study_run_launches E request w _ _ Hsome Hrun).
  unfold glob. rewrite Hdir.
  assert (∀ suffix,
            endswith "metadata.json" suffix = false ->
            endswith (Registry.filename study_file) suffix = true ->
            filter (λ n, endswith n suffix = true) names
            = [Registry.filename study_file]) as Hone.
  { intros suffix Hmeta Hup. apply filter_unique; try done.
    - apply Hin. by right.
    - intros x Hx Hend. apply Hin in Hx as [->|Hx]; [congruence|done]. }
  assert (∀ suffix,
            endswith "metadata.json" suffix = false ->
            endswith (Registry.filename study_file) suffix = false ->
            filter (λ n, endswith n suffix = true) names = []) as Hnone.
  { intros suffix Hmeta Hup. apply filter_nothing.
    intros x Hx Hend. apply Hin in Hx as [->| ->]; congruence. }
  split; [|split].
  - intros HR. by rewrite (Hone ".R" eq_refl HR).
  - intros HR HP. by rewrite (Hnone ".R" eq_refl HR), (Hone ".py" eq_refl HP).
  - intros HR HP.
    by rewrite (Hnone ".R" eq_refl HR), (Hnone ".py" eq_refl HP).
Qed.

(** ** The properties at concrete inputs *)

(** The status of execution [e0] survives the execution [e1]. *)
Lemma execute_study_isolation_witness :
  plain_name "s1" = true ∧ plain_name "e1" = true ∧ plain_name "e0" = true
  ∧ status_files
      (files (execute_study Examples.prints_42 (Examples.request "s1")
                Scenarios.after_e0).2) !! "/results/s1/e0/status.json"
    = status_files (files Scenarios.after_e0)
        !! "/results/s1/e0/status.json".
Proof.
  assert (("s1", "e0")
          ≠ (Request.study_id (Examples.request "s1"),
             Request.execution_id (Examples.request "s1"))) as Hne
    by (vm_compute; discriminate).
  repeat (split; [reflexivity|]).
  exact (proj1 (execute_study_isolation Examples.prints_42
                  (Examples.request "s1") Scenarios.after_e0 "s1" "e0"
                  eq_refl eq_refl eq_refl eq_refl Hne)).
Defined.

(** The log of the execution of study [s1] read back. *)
Lemma log_read_back_witness :
  listdir Examples.prints_42 (study_dir_of (Examples.request "s1")) ≠ None
  ∧ (get_execution_logs "s1" "e1"
       (execute_study Examples.prints_42 (Examples.request "s1")
          Examples.world0).2).1
    = Returned
        (log_text (log_file_of (Examples.request "s1"))
           (effects_of Examples.prints_42 (Examples.request "s1")
              Examples.world0)).
Proof.
  assert (listdir Examples.prints_42 (study_dir_of (Examples.request "s1"))
          ≠ None) as Hdir by (vm_compute; discriminate).
  split; [exact Hdir|].
  exact (proj1 (log_read_back Examples.prints_42 (Examples.request "s1")
                  Examples.world0) Hdir).
Defined.

(** Study [s2] holds only its metadata; its default analysis completes. *)
Lemma default_analysis_completes_witness :
  none_matching ".R" ["metadata.json"]
  ∧ none_matching ".py" ["metadata.json"]
  ∧ (execute_study Examples.prints_42 (Examples.request "s2")
       Examples.world0).1
    = Returned (completed_status Examples.prints_42 (Examples.request "s2")
                  Examples.world0).
Proof.
  assert (none_matching ".R" ["metadata.json"]) as HR
    by (by repeat constructor).
  assert (none_matching ".py" ["metadata.json"]) as HP
    by (by repeat constructor).
  split; [exact HR|]. split; [exact HP|].
  exact (proj1 (default_analysis_completes Examples.prints_42
                  (Examples.request "s2") Examples.world0
                  ["metadata.json"] [[("n", JInt 1)]] [("n", JInt 1)] []
                  [("n", JInt 1)] [] [[("n", JInt 1)]]
                  eq_refl HR HP eq_refl eq_refl eq_refl eq_refl)).
Defined.

(** The ICU query fails: the diagnoses query is never issued. *)
Lemma default_analysis_stops_at_first_failure_witness :
  read_sql Scenarios.icu_fails IcuStatistics
  = inr "relation cdm.visit_detail does not exist"
  ∧ queries (effects_of Scenarios.icu_fails (Examples.request "s2")
               Examples.world0)
    = [Demographics; VisitStatistics] ++ [IcuStatistics].
Proof.
  split; [reflexivity|].
  assert (none_matching ".R" ["metadata.json"]) as HR
    by (by repeat constructor).
  assert (none_matching ".py" ["metadata.json"]) as HP
    by (by repeat constructor).
  assert (Forall (λ q', ∃ rows, read_sql Scenarios.icu_fails q' = inl rows)
            [Demographics; VisitStatistics]) as Hbefore
    by (repeat constructor; by eexists).
  exact (proj1 (proj2 (default_analysis_stops_at_first_failure
                         Scenarios.icu_fails (Examples.request "s2")
                         Examples.world0 ["metadata.json"]
                         [Demographics; VisitStatistics] IcuStatistics
                         [TopDiagnoses]
                         "relation cdm.visit_detail does not exist"
                         eq_refl HR HP eq_refl Hbefore eq_refl))).
Defined.

(** The visit statistics have no row: all four queries run, then the
    execution fails. *)
Lemma default_analysis_fails_without_rows_witness :
  read_sql Scenarios.no_visits VisitStatistics = inl []
  ∧ queries (effects_of Scenarios.no_visits (Examples.request "s2")
               Examples.world0) = default_queries.
Proof.
  split; [reflexivity|].
  assert (none_matching ".R" ["metadata.json"]) as HR
    by (by repeat constructor).
  assert (none_matching ".py" ["metadata.json"]) as HP
    by (by repeat constructor).
  exact (proj1 (proj2 (default_analysis_fails_without_rows
                         Scenarios.no_visits (Examples.request "s2")
                         Examples.world0 ["metadata.json"]
                         [[("n", JInt 1)]] [] [[("n", JInt 1)]]
                         [[("n", JInt 1)]]
                         eq_refl HR HP eq_refl eq_refl eq_refl eq_refl
                         (or_introl eq_refl)))).
Defined.

(** [Rscript] is not installed: the execution of study [s1] fails. *)
Lemma spawn_failure_fails_execution_witness :
  chosen_script Scenarios.no_interpreter (Examples.request "s1")
    "Rscript" "R" "/studies/s1/b.R"
  ∧ (execute_study Scenarios.no_interpreter (Examples.request "s1")
       Examples.world0).1
    = Raised (HTTPException 500
                ("Execution failed: "
                 +:+ "No such file or directory: Rscript")).
Proof.
  assert (chosen_script Scenarios.no_interpreter (Examples.request "s1")
            "Rscript" "R" "/studies/s1/b.R") as Hc
    by (by eapply chosen_r).
  split; [exact Hc|].
  exact (proj1 (spawn_failure_fails_execution Scenarios.no_interpreter
                  (Examples.request "s1") Examples.world0 _ _ _
                  "No such file or directory: Rscript" Hc eq_refl)).
Defined.

(** Study [s2] under timeouts 10 and 3600. *)
Lemma default_analysis_ignores_timeout_witness :
  listdir Examples.prints_42 (path_join STUDIES_DIR "s2")
  = Some ["metadata.json"]
  ∧ effects_of Examples.prints_42
      {| Request.study_id := "s2"; Request.execution_id := "e1";
         Request.parameters := Some (JObj []); Request.timeout := 3600 |}
      Examples.world0
    = effects_of Examples.prints_42
        {| Request.study_id := "s2"; Request.execution_id := "e1";
           Request.parameters := None; Request.timeout := 10 |}
        Examples.world0.
Proof.
  split; [reflexivity|].
  assert (none_matching ".R" ["metadata.json"]) as HR
    by (by repeat constructor).
  assert (none_matching ".py" ["metadata.json"]) as HP
    by (by repeat constructor).
  exact (proj1 (proj2 (default_analysis_ignores_timeout Examples.prints_42
                         "s2" "e1" None 10 (Some (JObj [])) 3600
                         Examples.world0 ["metadata.json"]
                         eq_refl HR HP))).
Defined.

(** The backend finds no directory for study [s9]. *)
Lemma backend_execute_unknown_study_witness :
  BackendApi.dir_exists Scenarios.no_studies (path_join STUDIES_DIR "s9")
  = false
  ∧ BackendApi.execute_study Scenarios.no_studies "s9" None
    = (Raised (HTTPException 500
                 ("Execution failed: "
                  +:+ BackendApi.str Scenarios.no_studies
                        (HTTPException 404 "Study not found"))), []).
Proof.
  split; [reflexivity|].
  exact (backend_execute_unknown_study Scenarios.no_studies "s9" None
           eq_refl).
Defined.

(** The executor answers 404; the backend raises 500. *)
Lemma backend_execute_executor_error_witness :
  ∃ resp,
    BackendApi.post Scenarios.executor_answers_404
      (BackendApi.CODE_EXECUTION_URL +:+ "/execute")
      (BackendApi.payload Scenarios.executor_answers_404 "s1" None)
    = inl resp
    ∧ BackendApi.status_code resp ≠ 200
    ∧ (BackendApi.execute_study Scenarios.executor_answers_404 "s1" None).1
      = Raised (HTTPException 500
                  ("Execution failed: "
                   +:+ BackendApi.str Scenarios.executor_answers_404
                         (HTTPException (BackendApi.status_code resp)
                            ("Code executor error: "
                             +:+ BackendApi.text resp)))).
Proof.
  eexists. split; [reflexivity|].
  assert (BackendApi.status_code
            {| BackendApi.status_code := 404;
               BackendApi.text := "Not Found";
               BackendApi.json_body := inr "Expecting value" |} ≠ 200)
    as Hcode by (cbn; lia).
  split; [exact Hcode|].
  exact (f_equal fst
           (backend_execute_executor_error Scenarios.executor_answers_404
              "s1" None _ eq_refl eq_refl Hcode)).
Defined.

(** The upload [analysis.R] is registered and found again. *)
Lemma register_then_get_study_witness :
  Registry.get_study Scenarios.registry "u1" Scenarios.registered
  = Returned Scenarios.package.
Proof.
  exact (proj2 (register_then_get_study Scenarios.registry Scenarios.upload
                  EmptyString "demo" "Test Researcher" "Test Institution" ∅
                  eq_refl)).
Defined.

(** The registered study is listed. *)
Lemma list_studies_complete_witness :
  Registry.list_studies Scenarios.registry ["u1"] Scenarios.registered
  = Returned [Scenarios.package]
  ∧ ∃ metadata,
      Registry.decode Scenarios.registry "u1" = inl metadata
      ∧ metadata ∈ [Scenarios.package].
Proof.
  assert (Registry.list_studies Scenarios.registry ["u1"]
            Scenarios.registered = Returned [Scenarios.package]) as Hl
    by (vm_compute; reflexivity).
  split; [exact Hl|].
  refine (list_studies_complete Scenarios.registry ["u1"]
            Scenarios.registered [Scenarios.package] Hl "u1" "u1" _ _).
  - apply elem_of_cons. by left.
  - vm_compute. reflexivity.
Defined.

(** The executor lists the metadata before the upload and still runs the
    upload. *)
Lemma registered_study_runs_its_upload_witness :
  plain_name (Registry.filename Scenarios.upload) = true
  ∧ endswith (Registry.filename Scenarios.upload) ".R" = true
  ∧ launches (effects_of Scenarios.executor (Examples.request "u1")
                Examples.world0)
    = [LaunchProcess
         ["Rscript";
          path_join (study_dir_of (Examples.request "u1"))
            (Registry.filename Scenarios.upload)]].
Proof.
  split; [reflexivity|]. split; [reflexivity|].
  assert (NoDup ["metadata.json"; "analysis.R"]) as Hnd.
  { apply NoDup_cons. split; [|apply NoDup_singleton].
    rewrite list_elem_of_singleton. discriminate. }
  assert (∀ n, n ∈ ["metadata.json"; "analysis.R"]
               ↔ ∃ dir,
                   (Registry.register_study Scenarios.registry
                      Scenarios.upload EmptyString "demo" "Test Researcher"
                      "Test Institution" ∅).2
                     !! Registry.uuid4 Scenarios.registry = Some dir
                   ∧ is_Some (dir !! n)) as Hnames.
  { intros n.
    rewrite registered_directory_names by apply lookup_empty.
    rewrite elem_of_cons, list_elem_of_singleton. reflexivity. }
  exact (proj1 (registered_study_runs_its_upload Scenarios.registry
                  Scenarios.upload EmptyString "demo" "Test Researcher"
                  "Test Institution" ∅ Scenarios.executor
                  (Examples.request "u1") Examples.world0
                  ["metadata.json"; "analysis.R"]
                  eq_refl (lookup_empty _) eq_refl eq_refl Hnd Hnames)
           eq_refl).
Defined.

(** The upload [analysis.R] and its metadata are the files of study
    [u1]. *)
Lemma register_study_files_witness :
  plain_name (Registry.filename Scenarios.upload) = true
  ∧ ∃ dir,
      Scenarios.registered !! "u1" = Some dir
      ∧ dir !! "metadata.json" = Some "u1"
      ∧ dir !! "analysis.R" = Some "cat(42)".
Proof.
  split; [reflexivity|].
  destruct (register_study_files Scenarios.registry Scenarios.upload
              EmptyString "demo" "Test Researcher" "Test Institution" ∅
              eq_refl) as (_ & dir & Hdir & Hmeta & Hupload & _).
  exists dir. split; [exact Hdir|]. split; [exact Hmeta|].
  apply Hupload. discriminate.
Defined.

(** ** Listing the executions of a study *)

(** X19: [list_executions] answers, for the listed execution directories
    that hold a [status.json], exactly their status records, and nothing
    when the results directory of the study does not exist; after an
    execution whose id is listed, the answer holds the record that
    execution ended with, in a terminal state. *)
Theorem list_executions_after_execution E request w names :
  (list_executions None (Request.study_id request)
     (execute_study E request w).2).1 = Returned []
  ∧ ∃ l,
      (list_executions (Some names) (Request.study_id request)
         (execute_study E request w).2).1 = Returned l
      ∧ (∀ s, s ∈ l
              ↔ ∃ execution,
                  execution ∈ names
                  ∧ status_files (files (execute_study E request w).2)
                      !! path_join
                           (path_join (path_join RESULTS_DIR
                                         (Request.study_id request))
                              execution) "status.json" = Some s)
      ∧ (Request.execution_id request ∈ names ->
         ∃ s, s ∈ l ∧ terminal s
              ∧ execution_id s = Request.execution_id request).
Proof.
  split; [reflexivity|]. eexists. split; [reflexivity|]. split.
  - intros s. rewrite list_elem_of_omap. reflexivity.
  - intros Hin.
    destruct (execute_study_effects E request w) as (Hrun & _ & Hfiles).
    apply study_run_last_status in Hrun
      as (pre & s & Hevs & _ & Heid & _ & _ & Ho).
    exists s. split; [|split; [|exact Heid]].
    + apply list_elem_of_omap. exists (Request.execution_id request).
      split; [exact Hin|].
      change (path_join (path_join (path_join RESULTS_DIR
                                      (Request.study_id request))
                           (Request.execution_id request)) "status.json")
        with (status_file_of request).
      by rewrite Hfiles, Hevs, status_after_put.
    + destruct (execute_study E request w).1.
      * left. tauto.
      * right. destruct Ho as (? & ? & ? & ?). tauto.
Qed.

(** The execution [e1] of study [s1] is listed after it ran. *)
Lemma list_executions_after_execution_witness :
  Request.execution_id (Examples.request "s1") ∈ ["e0"; "e1"]
  ∧ ∃ s l,
      (list_executions (Some ["e0"; "e1"]) "s1"
         (execute_study Examples.prints_42 (Examples.request "s1")
            Scenarios.after_e0).2).1 = Returned l
      ∧ s ∈ l ∧ terminal s ∧ execution_id s = "e1".
Proof.
  assert (Request.execution_id (Examples.request "s1") ∈ ["e0"; "e1"])
    as Hin by (apply elem_of_cons; right; apply elem_of_cons; by left).
  split; [exact Hin|].
  destruct (proj2 (list_executions_after_execution Examples.prints_42
                     (Examples.request "s1") Scenarios.after_e0
                     ["e0"; "e1"]))
    as (l & Hl & _ & Hlisted).
  destruct (Hlisted Hin) as (s & Hs & Hterminal & Hid).
  exists s, l. auto.
Defined.
